(** * GSOF_ArduBridge: the I2C protocol core ([GSOF_ArduBridge/ArduI2C.py])

    A shallow embedding of the class [ArduBridgeI2C] and the properties of
    its wire packets and transport round trips.

    The class talks to a serial bridge object ([self.comm], an instance of
    [BridgeSerial]) through three methods, [send], [receive] and
    [sendReset].  That object is an external collaborator: it is taken here
    as an interface, [Transport], and every general statement below holds
    for all of its implementations.  A call of [receive] yields a Python
    pair [[status, bytes]]; the code reads [reply[0]] and [reply[1]].

    Python integers are unbounded, and the class masks none of its
    arguments except the frequency, so packets are lists of [Z]. *)

From Stdlib Require Import ZArith QArith String Ascii List Lia.
From stdpp Require Import base option list gmap strings.

Local Open Scope string_scope.
Local Open Scope list_scope.
Local Open Scope Z_scope.

(** ** Python values met in the class *)

(** The exceptions the methods can raise on their own. *)
Inductive PyExn : Type :=
| NameError (name : string)
| IndexError
| KeyError (key : Z)
| OverflowError.

(** A method either returns a value or propagates an exception. *)
Inductive Outcome (A : Type) : Type :=
| Returns (a : A)
| Raises (e : PyExn).
Arguments Returns {A} a.
Arguments Raises {A} e.

(** What [self.comm.receive(n)] hands back: [reply[0]] and [reply[1]]. *)
Record Reply : Type := mkReply { status : Z; data : list Z }.

(** [readRaw] and [readRegister] return either the list of bytes read or
    the integer [-1]. *)
Inductive PyVal : Type :=
| VList (l : list Z)
| VInt (z : Z).

(** The members of the [par] tuple of a [CON_prn.printf] call. *)
Inductive PrintArg : Type :=
| ArgInt (z : Z)
| ArgText (s : string)
| ArgStrOf (l : list Z).

(** [ord(c)] and [len(l)]. *)
Definition ord (c : ascii) : Z := Z.of_N (N_of_ascii c).
Arguments ord c%_char.
Definition len {A : Type} (l : list A) : Z := Z.of_nat (length l).

(** ** The transport and the calls observed on it *)

Class Transport (T : Type) : Type := {
  send : list Z -> T -> T;
  receive : Z -> T -> Reply * T;
  sendReset : T -> T
}.

(** Every call that leaves the class, in program order. *)
Inductive Event : Type :=
| EvSend (bytes : list Z)
| EvReceive (n : Z)
| EvReset
| EvSleep (seconds : Q)
| EvPrintf (fmt : string) (par : list PrintArg) (v : bool).

Record World (T : Type) : Type := mkWorld { link : T; trace : list Event }.
Arguments mkWorld {T} link trace.
Arguments link {T} w.
Arguments trace {T} w.

(** State and exception monad: the world is threaded through a raised
    exception too, since what was sent before it stays sent. *)
Definition M (T A : Type) : Type := World T -> Outcome A * World T.

Definition ret {T A : Type} (a : A) : M T A := fun w => (Returns a, w).

Definition bind {T A B : Type} (m : M T A) (k : A -> M T B) : M T B :=
  fun w =>
    match m w with
    | (Returns a, w') => k a w'
    | (Raises e, w') => (Raises e, w')
    end.

Definition raise {T A : Type} (e : PyExn) : M T A := fun w => (Raises e, w).

#[global] Instance M_ret (T : Type) : MRet (M T) := fun A => @ret T A.
#[global] Instance M_bind (T : Type) : MBind (M T) := fun A B k m => @bind T A B m k.

Definition emit {T : Type} (e : Event) (w : World T) : list Event :=
  trace w ++ [e].

Section Calls.
Context {T : Type} {TT : Transport T}.

(** [self.comm.send(bytes)] *)
Definition comm_send (bytes : list Z) : M T unit :=
  fun w => (Returns tt, mkWorld (send bytes (link w)) (emit (EvSend bytes) w)).

(** [self.comm.receive(n)] *)
Definition comm_receive (n : Z) : M T Reply :=
  fun w =>
    let '(r, t) := receive n (link w) in
    (Returns r, mkWorld t (emit (EvReceive n) w)).

(** [self.comm.sendReset()] *)
Definition comm_sendReset : M T unit :=
  fun w => (Returns tt, mkWorld (sendReset (link w)) (emit EvReset w)).

(** [time.sleep(seconds)] *)
Definition time_sleep (seconds : Q) : M T unit :=
  fun w => (Returns tt, mkWorld (link w) (emit (EvSleep seconds) w)).

(** [CON_prn.printf(fmt, par=par, v=v)] *)
Definition printf (fmt : string) (par : list PrintArg) (v : bool) : M T unit :=
  fun w => (Returns tt, mkWorld (link w) (emit (EvPrintf fmt par v) w)).

(** [l[i]] on a list: [IndexError] out of range. *)
Definition getitem (l : list Z) (i : nat) : M T Z :=
  match l !! i with
  | Some x => ret x
  | None => raise IndexError
  end.

(** [d[k]] on a dict: [KeyError] on a missing key. *)
Definition dict_getitem (d : gmap Z string) (k : Z) : M T string :=
  match d !! k with
  | Some s => ret s
  | None => raise (KeyError k)
  end.

(** Reading a name bound nowhere in the enclosing scopes. *)
Definition unbound_name (name : string) : M T Z := raise (NameError name).
End Calls.

(** Runs a method on a transport in state [t], with an empty trace. *)
Definition run {T A : Type} (m : M T A) (t : T) : Outcome A * World T :=
  m (mkWorld t []).

Definition result {T A : Type} (m : M T A) (t : T) : Outcome A := fst (run m t).
Definition calls {T A : Type} (m : M T A) (t : T) : list Event := trace (snd (run m t)).

(** The packets handed to [send], and the byte counts asked of [receive]. *)
Fixpoint sent (tr : list Event) : list (list Z) :=
  match tr with
  | [] => []
  | EvSend bytes :: tr' => bytes :: sent tr'
  | _ :: tr' => sent tr'
  end.

Fixpoint received (tr : list Event) : list Z :=
  match tr with
  | [] => []
  | EvReceive n :: tr' => n :: received tr'
  | _ :: tr' => received tr'
  end.

(** ** The class [ArduBridgeI2C] *)

(** The instance attributes [__init__] sets from its arguments; [self.comm]
    is the [link] of the world. *)
Record ArduBridgeI2C : Type := mkSelf { v : bool }.

(** I2C protocol command *)
Definition I2C_PACKET_ID : Z := ord "2".
Definition CMD_I2C_ADDRESS : Z := ord "A".
Definition CMD_I2C_LENGTH : Z := ord "L".
Definition CMD_I2C_FREQ : Z := ord "F".
Definition CMD_I2C_WRITE_RESTART : Z := ord "w".
Definition CMD_I2C_WRITE : Z := ord "W".
Definition CMD_I2C_READ_RESTART : Z := ord "r".
Definition CMD_I2C_READ : Z := ord "R".

Definition ERROR_NONE : Z := ord "N".
Definition ERROR_UNESCAPE : Z := ord "U".
Definition ERROR_LENGTH : Z := ord "L".
Definition ERROR_READ : Z := ord "R".
Definition ERROR_WRITEDATA : Z := ord "W".
Definition ERROR_SENDDATA : Z := ord "S".

Definition ERROR : gmap Z string :=
  <[ERROR_SENDDATA := "SEND-DATA"]>
  (<[ERROR_WRITEDATA := "WRITE-DATA"]>
  (<[ERROR_READ := "READ"]>
  (<[ERROR_LENGTH := "LENGTH"]>
  (<[ERROR_UNESCAPE := "UNESCAPE"]>
  (<[ERROR_NONE := "OK"]> ∅))))).

(** [a > b] on the delay. *)
Definition Qgt_bool (a b : Q) : bool :=
  (Qnum b * Zpos (Qden a) <? Qnum a * Zpos (Qden b))%Z.

(** [reply[0] != 0] *)
Definition got_byte (reply : Reply) : bool := negb (status reply =? 0).

(** [(reply[0] != 0) and (reply[0] != -1)] *)
Definition ack_ok (reply : Reply) : bool :=
  negb (status reply =? 0) && negb (status reply =? -1).

(** ** [int(a/b)] on integers

    [a/b] on two Python integers is the binary64 number nearest to the
    exact quotient, ties going to the even mantissa, and [OverflowError]
    when that number would not be finite; [int] then drops the fraction.
    A double is kept as a mantissa [m] and an exponent [u], its value
    being [m * 2^u]. *)

(** The integer nearest to [n/d], for [d > 0], ties to the even one. *)
Definition round_half_even (n d : Z) : Z :=
  let q := n / d in
  let r := n mod d in
  if 2 * r <? d then q
  else if d <? 2 * r then q + 1
  else if Z.even q then q else q + 1.

(** [a/b < 2^k], for positive [a] and [b]. *)
Definition below_pow2 (a b k : Z) : bool :=
  a * 2 ^ Z.max 0 (- k) <? b * 2 ^ Z.max 0 k.

(** The exponent [e] with [2^e <= a/b < 2^(e+1)], for positive [a] and
    [b]. *)
Definition floor_log2_ratio (a b : Z) : Z :=
  let k := Z.log2 a - Z.log2 b in
  if below_pow2 a b k then k - 1 else k.

(** The double nearest to [a/b], for positive [a] and [b]: 53 bits of
    mantissa, no exponent under [-1074], [None] from [2^1024] on. *)
Definition nearest_double (a b : Z) : option (Z * Z) :=
  let e := floor_log2_ratio a b in
  let u := Z.max (e - 52) (-1074) in
  let m := round_half_even (a * 2 ^ Z.max 0 (- u)) (b * 2 ^ Z.max 0 u) in
  if 2 ^ 1024 * 2 ^ Z.max 0 (- u) <=? m * 2 ^ Z.max 0 u then None else Some (m, u).

(** [int(x)] on a double that is not negative. *)
Definition float_trunc (x : Z * Z) : Z :=
  let '(m, u) := x in (m * 2 ^ Z.max 0 u) / 2 ^ Z.max 0 (- u).

(** [int(a/b)] for a positive constant [b]; [None] is [OverflowError].
    The sign is carried apart, as the rounding is symmetric. *)
Definition int_truediv (a : Z) (b : positive) : option Z :=
  match a with
  | Z0 => Some 0
  | Zpos p => option_map float_trunc (nearest_double (Zpos p) (Zpos b))
  | Zneg p => option_map (fun x => - float_trunc x) (nearest_double (Zpos p) (Zpos b))
  end.

Section Methods.
Context {T : Type} {TT : Transport T}.
Variable self : ArduBridgeI2C.

(** [int(freq/10000)&0xff] on an integer [freq]: the division goes through
    a double and can overflow, before anything is sent. *)
Definition setFreq (freq : Z) : M T unit :=
  match int_truediv freq 10000 with
  | None => raise OverflowError
  | Some q =>
      let freq := Z.land q 255 in
      let vDat := [I2C_PACKET_ID; CMD_I2C_FREQ; freq] in
      comm_send vDat;;
      comm_sendReset
  end.

(** [writeRaw]: the verbose branch reads the name [reg], which the method
    binds nowhere; the [par] tuple is built left to right, so the name is
    read after [dev] and before [self.ERROR[res]]. *)
Definition writeRaw (dev : Z) (vByte : list Z) : M T Reply :=
  let vDat := [I2C_PACKET_ID; CMD_I2C_ADDRESS; dev; CMD_I2C_LENGTH;
               len vByte; CMD_I2C_WRITE] ++ vByte in
  comm_send vDat;;
  reply ← comm_receive 1;
  (if v self then
     if got_byte reply then
       res ← getitem (data reply) 0;
       reg ← unbound_name "reg";
       msg ← dict_getitem ERROR res;
       printf "I2C-WR: Dev-0x%02x, Reg%d - %s"
              [ArgInt dev; ArgInt reg; ArgText msg] true
     else ret tt
   else ret tt);;
  ret reply.

(** [readRaw]: [early] is the value of the [return val] inside the nested
    tests, [None] when control falls through to the error report. *)
Definition readRaw (dev N : Z) : M T PyVal :=
  let vHdr := [I2C_PACKET_ID; CMD_I2C_ADDRESS; dev; CMD_I2C_LENGTH;
               N; CMD_I2C_READ] in
  comm_send vHdr;;
  reply ← comm_receive 1;
  early ← (if got_byte reply then
             n ← getitem (data reply) 0;
             reply ← comm_receive n;
             if got_byte reply then
               let val := data reply in
               printf "I2C-RD: Dev-0x%02x, Dat %s "
                      [ArgInt dev; ArgStrOf val] (v self);;
               ret (Some val)
             else ret None
           else ret None);
  match early with
  | Some val => ret (VList val)
  | None =>
      printf "I2C-RD: Dev%d - Error" [ArgInt dev] (v self);;
      ret (VInt (-1))
  end.

Definition writeRegister (dev reg : Z) (vByte : list Z) : M T Reply :=
  let vDat := [I2C_PACKET_ID; CMD_I2C_ADDRESS; dev; CMD_I2C_LENGTH;
               len vByte + 1; CMD_I2C_WRITE; reg] ++ vByte in
  comm_send vDat;;
  reply ← comm_receive 1;
  (if v self then
     if got_byte reply then
       res ← getitem (data reply) 0;
       msg ← dict_getitem ERROR res;
       printf "I2C-WR: Dev-0x%02x, Reg%d - %s"
              [ArgInt dev; ArgInt reg; ArgText msg] true
     else ret tt
   else ret tt);;
  ret reply.

(** [readRegister]: [delay] is a number of seconds, compared with zero and
    passed to [time.sleep]; it is taken as a rational.  [err] is the flag
    of the same name, [early] as in [readRaw]. *)
Definition readRegister (dev reg N : Z) (delay : Q) : M T PyVal :=
  let vHdr := [I2C_PACKET_ID; CMD_I2C_ADDRESS; dev; CMD_I2C_LENGTH;
               1; CMD_I2C_WRITE_RESTART; reg] in
  let vRd := [I2C_PACKET_ID; CMD_I2C_LENGTH; N; CMD_I2C_READ] in
  err ← (if Qle_bool delay 0 then
           comm_send (vHdr ++ vRd);;
           reply ← comm_receive 1;
           ret (if ack_ok reply then false else true)
         else
           comm_send vHdr;;
           reply ← comm_receive 1;
           if ack_ok reply then
             (if Qgt_bool delay 0 then time_sleep delay else ret tt);;
             comm_send vRd;;
             ret false
           else ret true);
  early ← (if negb err then
             reply ← comm_receive 1;
             if got_byte reply then
               n ← getitem (data reply) 0;
               reply ← comm_receive n;
               if got_byte reply then
                 let val := data reply in
                 printf "I2C-RD: Dev-0x%02x, Reg%d, Dat %s "
                        [ArgInt dev; ArgInt reg; ArgStrOf val] (v self);;
                 ret (Some val)
               else ret None
             else ret None
           else ret None);
  match early with
  | Some val => ret (VList val)
  | None =>
      printf "I2C-RD: Dev%d, Reg%d - Error" [ArgInt dev; ArgInt reg] (v self);;
      ret (VInt (-1))
  end.
End Methods.

(** ** A scripted transport

    A bridge whose replies are fixed in advance: each [receive] hands out
    the next queued reply, and [[0, []]] once the queue is empty.  It
    stands for the firmware in the concrete scenarios. *)
Record Scripted : Type := script { pending : list Reply }.

#[global] Instance Scripted_transport : Transport Scripted := {
  send _ t := t;
  receive _ t :=
    match pending t with
    | [] => (mkReply 0 [], t)
    | r :: q => (r, script q)
    end;
  sendReset t := t
}.

(** A payload one byte too long for a one-byte length. *)
Definition long_payload : list Z := repeat 0 256.

(** The firmware answers the register selection with the length error
    ['L'], then a count and three bytes. *)
Definition error_ack_script : Scripted :=
  script [mkReply 1 [0x4C]; mkReply 1 [0x03]; mkReply 1 [0x11; 0x22; 0x33]].

(** ** The packets

    The byte sequences the methods build, written with the character
    codes of the wire format. *)

Definition write_packet (dev : Z) (vByte : list Z) : list Z :=
  [ord "2"; ord "A"; dev; ord "L"; len vByte; ord "W"] ++ vByte.

Definition write_register_packet (dev reg : Z) (vByte : list Z) : list Z :=
  [ord "2"; ord "A"; dev; ord "L"; len vByte + 1; ord "W"; reg] ++ vByte.

Definition write_restart_packet (dev reg : Z) : list Z :=
  [ord "2"; ord "A"; dev; ord "L"; 1; ord "w"; reg].

Definition read_request_packet (N : Z) : list Z :=
  [ord "2"; ord "L"; N; ord "R"].

Definition read_packet (dev N : Z) : list Z :=
  [ord "2"; ord "A"; dev; ord "L"; N; ord "R"].

(** The length element of a segment against the bytes after its command. *)
Definition length_matches (seg : list Z) : Prop :=
  seg !! 4%nat = Some (len (drop 6 seg)).

(** [receive(n)] on the transport in state [t] hands back [r] and leaves
    the transport in state [t']. *)
Definition yields {T : Type} {TT : Transport T} (t : T) (n : Z) (r : Reply) (t' : T) : Prop :=
  receive n t = (r, t').

(** ** More observations on a trace *)

(** The arguments of the [time.sleep] calls, and the number of
    [sendReset] calls. *)
Fixpoint sleeps (tr : list Event) : list Q :=
  match tr with
  | [] => []
  | EvSleep d :: tr' => d :: sleeps tr'
  | _ :: tr' => sleeps tr'
  end.

Fixpoint resets (tr : list Event) : nat :=
  match tr with
  | [] => O
  | EvReset :: tr' => S (resets tr')
  | _ :: tr' => resets tr'
  end.

(** ** [GSOF_ArduBridge/ExtGpio_base.py] *)

(** What [pinPortMask] can raise: the division by a zero [pinsInPort], and
    the shift by a negative count. *)
Inductive ArithExn : Type :=
| ZeroDivisionError
| ValueError.

(** [pinPortMask(pin, pinsInPort=8)] on integers.  [int(pin/pinsInPort)]
    is the quotient truncated toward zero (Python's true division, exact
    on the integers a pin number takes); [%] is the modulo with the sign
    of the divisor; [1<<pin] raises on a negative count. *)
Definition pinPortMask (pin pinsInPort : Z) : ArithExn + Z * Z * Z :=
  if pinsInPort =? 0 then inl ZeroDivisionError
  else
    let port := Z.quot pin pinsInPort in
    let pin := pin mod pinsInPort in
    if pin <? 0 then inl ValueError
    else
      let mask := Z.shiftl 1 pin in
      inr (pin, port, mask).

(** An argument that is either one integer or a list of them, as the
    [type(val) == int] tests expect. *)
Inductive IntOrList : Type :=
| AnInt (z : Z)
| AList (l : list Z).

(** [if type(val) == int: val = [val]] *)
Definition as_list (val : IntOrList) : list Z :=
  match val with
  | AnInt z => [z]
  | AList l => l
  end.

Module ExtGPIO_base.

(** The class attributes. *)
Definition maxPorts : Z := 0.
Definition maxPins : Z := 0.
Definition OUTPUT : Z := 0.
Definition INPUT : Z := 1.

(** [[x]*n]: empty for a count that is not positive. *)
Definition times (x : Z) (n : Z) : list Z := replicate (Z.to_nat n) x.

Definition setMode (mode : Z) : Z := -1.
Definition getMode : Z := -1.
Definition setAllPinsToOutput : Z := 1.
Definition getAllPinsModes : list Z := times 0 maxPins.

Definition setPortMode (port : Z) (val : IntOrList) : list Z :=
  let val := as_list val in
  times 1 (len val).

Definition setBankMode (port : Z) (val : IntOrList) : list Z :=
  let val := as_list val in
  times 1 (len val).

Definition getPortMode (port N : Z) : list Z := times 0 N.

Definition setPort (port val : Z) : Z := 1.
Definition getPort (port : Z) : Z := 1.
Definition setPinMode (pin mode : Z) : Z := 1.

(** [setPin(pin, valList)] returns [[1]*len(pinList)], and [pinList] is
    not a name of this method. *)
Definition setPin (pin : Z) (valList : IntOrList) : Outcome (list Z) :=
  let valList := as_list valList in
  match (Raises (NameError "pinList") : Outcome (list Z)) with
  | Returns pinList => Returns (times 1 (len pinList))
  | Raises e => Raises e
  end.

Definition getPin (pinList : IntOrList) : Outcome (list Z) :=
  let pinList := as_list pinList in
  Returns (times 1 (len pinList)).

End ExtGPIO_base.

(** ** [GSOF_ArduBridge/max3700_class.py] *)

(** The driver can fail in ways the bus class cannot. *)
Inductive DrvExn : Type :=
| Py (e : PyExn)
| AttributeError (attr : string)
| UnboundLocalError (name : string)
| TypeError.

Inductive DrvOutcome (A : Type) : Type :=
| Done (a : A)
| Failed (e : DrvExn).
Arguments Done {A} a.
Arguments Failed {A} e.

(** The monad of the driver's methods, over the same world. *)
Definition D (T A : Type) : Type := World T -> DrvOutcome A * World T.

Definition dret {T A : Type} (a : A) : D T A := fun w => (Done a, w).

Definition dbind {T A B : Type} (m : D T A) (k : A -> D T B) : D T B :=
  fun w =>
    match m w with
    | (Done a, w') => k a w'
    | (Failed e, w') => (Failed e, w')
    end.

Definition dfail {T A : Type} (e : DrvExn) : D T A := fun w => (Failed e, w).

(** A call into the bus class. *)
Definition lift {T A : Type} (m : M T A) : D T A :=
  fun w =>
    match m w with
    | (Returns a, w') => (Done a, w')
    | (Raises e, w') => (Failed (Py e), w')
    end.

#[global] Instance D_ret (T : Type) : MRet (D T) := fun A => @dret T A.
#[global] Instance D_bind (T : Type) : MBind (D T) := fun A B k m => @dbind T A B m k.

Definition drun {T A : Type} (m : D T A) (t : T) : DrvOutcome A * World T :=
  m (mkWorld t []).

(** [bin(z)] *)
Fixpoint bin_digits (p : positive) : string :=
  match p with
  | xH => "1"
  | xO q => bin_digits q ++ "0"
  | xI q => bin_digits q ++ "1"
  end.

Definition bin (z : Z) : string :=
  match z with
  | Z0 => "0b0"
  | Zpos p => "0b" ++ bin_digits p
  | Zneg p => "-0b" ++ bin_digits p
  end.

Module Max3700ExtGPIO.

(** The attributes [__init__] takes from its arguments; [self.ID] is the
    string it formats from [devID]. *)
Record obj : Type := mk { v : bool; comm : ArduBridgeI2C; devID : Z; ID : string }.

Definition RES : gmap Z string :=
  <[-1 := "ERR"]> (<[0 := "ERR"]> (<[1 := "OK"]> ∅)).

Definition modeReg : Z := 0x04.
Definition bankModeReg : Z := 0x09.
Definition pinReg : Z := 0x24.
Definition portReg : Z := 0x44.
Definition pinZeroOffset : Z := 8.
Definition maxPorts : Z := 7.
Definition maxPins : Z := 20.

Definition MODE : gmap Z string := <[1 := "Normal"]> (<[0 := "Shutdown"]> ∅).
Definition tDet : gmap Z string := <[1 := "Enable"]> (<[0 := "Disable"]> ∅).

(** [reply != -1] and [reply[0]] on what a register read returns. *)
Definition is_not_minus_one (reply : PyVal) : bool :=
  match reply with
  | VInt z => negb (z =? -1)
  | VList _ => true
  end.

(** [str(reply)] as a [printf] argument. *)
Definition str_arg (reply : PyVal) : PrintArg :=
  match reply with
  | VList l => ArgStrOf l
  | VInt z => ArgInt z
  end.

Section Methods.
Context {T : Type} {TT : Transport T}.
Variable self : obj.

(** The default of the [v] parameter of [CON_prn.printf], a module that is
    not part of these sources. *)
Variable printf_default_v : bool.

Definition subscript0 (reply : PyVal) : D T Z :=
  match reply with
  | VList l => lift (getitem l 0)
  | VInt _ => dfail TypeError
  end.

Definition _getRegisters (reg N : Z) : M T PyVal :=
  readRegister (comm self) (devID self) reg N 0.

Definition _setRegisters (reg : Z) (vals : list Z) : M T Reply :=
  writeRegister (comm self) (devID self) reg vals.

(** [self.attr] for a name that neither [__init__] nor the class binds.
    The class defines [_getRegisters] and [_setRegisters]; its methods ask
    for [_readRegister], [_readRegisters], [_writeRegister] and
    [_writeRegisters]. *)
Definition no_attribute {A : Type} (attr : string) : D T A :=
  dfail (AttributeError attr).

Definition setMode (mode transitionDetection : Z) : D T Z :=
  let mode := if negb (mode =? 0) then 1 else mode in
  let val := mode in
  let val := Z.lor val (Z.shiftl (Z.land transitionDetection 1) 7) in
  _writeRegisters ← no_attribute "_writeRegisters";
  reply ← (_writeRegisters : Z -> list Z -> D T Reply) modeReg [mode];
  (if v self then
     res ← lift (dict_getitem RES (status reply));
     lift (printf "%s: MODE-Set: %s" [ArgText (ID self); ArgText res] true)
   else mret tt);;
  mret (status reply).

Definition getMode : D T PyVal :=
  _readRegisters ← no_attribute "_readRegisters";
  reply ← (_readRegisters : Z -> Z -> D T PyVal) modeReg 1;
  (if v self then
     if is_not_minus_one reply then
       r0 ← subscript0 reply;
       let mode := Z.land r0 1 in
       r0 ← subscript0 reply;
       let td := Z.land (Z.shiftr r0 7) 1 in
       m ← lift (dict_getitem MODE mode);
       d ← lift (dict_getitem tDet td);
       lift (printf "%s: MODE-Get: %s, Transition-Detection: %s"
                    [ArgText (ID self); ArgText m; ArgText d] true)
     else mret tt
   else mret tt);;
  mret reply.

Definition setBankMode (B : Z) (val : IntOrList) : D T Reply :=
  let val := as_list val in
  let N := len val in
  let N := if maxPorts <? B + N then maxPorts - B else N in
  _writeRegister ← no_attribute "_writeRegister";
  reply ← (_writeRegister : Z -> list Z -> D T Reply) (bankModeReg + B) val;
  res ← lift (dict_getitem RES (status reply));
  lift (printf "%s: bankMode Set: %s" [ArgText (ID self); ArgText res]
               printf_default_v);;
  mret reply.

Definition setAllPinsToOutput : D T Reply :=
  setMode 1 0;;
  setBankMode 0 (AList (replicate (Z.to_nat maxPorts) 0x55)).

Definition getBankMode (B N : Z) : D T PyVal :=
  let N := if maxPorts <? B + N then maxPorts - B else N in
  _readRegister ← no_attribute "_readRegister";
  reply ← (_readRegister : Z -> Z -> D T PyVal) (bankModeReg + B) N;
  lift (printf "%s: bankMode: %s" [ArgText (ID self); str_arg reply]
               printf_default_v);;
  mret reply.

Definition getAllPinsModes : D T PyVal :=
  getMode;;
  getBankMode 0 maxPorts.

(** The body of the [for val in valList] loop of [setPin]; [reply] is
    [None] while the name is unbound. *)
Fixpoint setPin_loop (valList : list Z) (pin : Z) (reply : option Reply)
  : D T (option Reply) :=
  match valList with
  | [] => mret reply
  | val :: rest =>
      let val := if negb (val =? 0) then 1 else val in
      let pinReg := pinReg + pinZeroOffset + pin in
      _writeRegister ← no_attribute "_writeRegister";
      reply ← (_writeRegister : Z -> list Z -> D T Reply) pinReg [val];
      res ← lift (dict_getitem RES (status reply));
      lift (printf "%s: PIN%d-Set: %d - %s"
                   [ArgText (ID self); ArgInt pin; ArgInt val; ArgText res]
                   (v self));;
      setPin_loop rest (pin + 1) (Some reply)
  end.

Definition setPin (pin : Z) (valList : IntOrList) : D T Z :=
  let valList := as_list valList in
  reply ← setPin_loop valList pin None;
  match reply with
  | Some reply => mret (status reply)
  | None => dfail (UnboundLocalError "reply")
  end.

Definition setPort (port val : Z) : D T Z :=
  let portReg := portReg + pinZeroOffset + port in
  _writeRegister ← no_attribute "_writeRegister";
  reply ← (_writeRegister : Z -> list Z -> D T Reply) portReg [Z.land val 0xff];
  (if v self then
     res ← lift (dict_getitem RES (status reply));
     lift (printf "%s: POPT%d-Set: %s"
                  [ArgText (ID self); ArgInt port; ArgText res] true)
   else mret tt);;
  mret (status reply).

(** [for port in [0,8,16,24]: self.setPort(port, 0x00)] *)
Fixpoint clearAllPins_loop (ports : list Z) : D T unit :=
  match ports with
  | [] => mret tt
  | port :: rest => setPort port 0x00;; clearAllPins_loop rest
  end.

Definition clearAllPins : D T unit := clearAllPins_loop [0; 8; 16; 24].

(** The [for pin in pinList] loop of [getPin], with the list built so
    far. *)
Fixpoint getPin_loop (pinList : list Z) (result : list Z) : D T (list Z) :=
  match pinList with
  | [] => mret result
  | pin :: rest =>
      let pinReg := pinReg + pinZeroOffset + pin in
      _readRegister ← no_attribute "_readRegister";
      reply ← (_readRegister : Z -> Z -> D T PyVal) pinReg 1;
      (if is_not_minus_one reply then
         r0 ← subscript0 reply;
         lift (printf "%s: PIN%d = %d"
                      [ArgText (ID self); ArgInt pin; ArgInt r0] (v self));;
         r0 ← subscript0 reply;
         getPin_loop rest (result ++ [r0])
       else
         lift (printf "%s: PIN%d-Get: Error"
                      [ArgText (ID self); ArgInt pin] (v self));;
         getPin_loop rest (result ++ [-1]))
  end.

Definition getPin (pinList : IntOrList) : D T (list Z) :=
  let pinList := as_list pinList in
  getPin_loop pinList [].

Definition getPort (port : Z) : D T Z :=
  let portReg := portReg + pinZeroOffset + port in
  _readRegister ← no_attribute "_readRegister";
  reply ← (_readRegister : Z -> Z -> D T PyVal) portReg 1;
  if is_not_minus_one reply then
    r0 ← subscript0 reply;
    lift (printf "%s: PORT%d = 0x%02x (%s)"
                 [ArgText (ID self); ArgInt port; ArgInt r0; ArgText (bin r0)]
                 (v self));;
    r0 ← subscript0 reply;
    mret r0
  else
    lift (printf "%s: PORT%d-Get: Error" [ArgText (ID self); ArgInt port]
                 (v self));;
    mret (-1).

End Methods.
End Max3700ExtGPIO.

(** ** Proof support *)

Lemma ord_codes :
  ord "2" = 0x32 /\ ord "A" = 0x41 /\ ord "L" = 0x4C /\ ord "F" = 0x46 /\
  ord "W" = 0x57 /\ ord "w" = 0x77 /\ ord "R" = 0x52 /\ ord "r" = 0x72.
Proof. repeat split; reflexivity. Qed.

Lemma got_byte_true (s : Z) (d : list Z) : s <> 0 -> got_byte (mkReply s d) = true.
Proof. intros Hs. unfold got_byte. simpl. destruct (Z.eqb_spec s 0); [lia|reflexivity]. Qed.

Lemma ack_ok_true (s : Z) (d : list Z) :
  s <> 0 -> s <> -1 -> ack_ok (mkReply s d) = true.
Proof.
  intros H0 H1. unfold ack_ok. simpl.
  destruct (Z.eqb_spec s 0); [lia|]. destruct (Z.eqb_spec s (-1)); [lia|reflexivity].
Qed.

Lemma ack_ok_false (s : Z) (d : list Z) :
  s = 0 \/ s = -1 -> ack_ok (mkReply s d) = false.
Proof. intros [-> | ->]; reflexivity. Qed.

Lemma Qgt_bool_pos (q : Q) : (0 < q)%Q -> Qgt_bool q 0 = true /\ Qle_bool q 0 = false.
Proof.
  intros Hq. split.
  - unfold Qgt_bool. apply Z.ltb_lt. exact Hq.
  - destruct (Qle_bool q 0) eqn:E; [|reflexivity].
    apply Qle_bool_iff in E. exfalso. exact (Qlt_not_le _ _ Hq E).
Qed.

(** Below [2^53] the double nearest to a quotient of integers truncates to
    the integer quotient. *)

Lemma round_half_even_cases (x d : Z) :
  round_half_even x d = x / d
  \/ (round_half_even x d = x / d + 1 /\ d <= 2 * (x mod d)).
Proof.
  unfold round_half_even.
  destruct (Z.ltb_spec (2 * (x mod d)) d) as [?|Hge]; [left; reflexivity|].
  destruct (Z.ltb_spec d (2 * (x mod d))); [right; split; [reflexivity|lia]|].
  destruct (Z.even (x / d)); [left; reflexivity|right; split; [reflexivity|lia]].
Qed.

Lemma floor_log2_ratio_le (a b : Z) :
  0 < a -> 0 < b ->
  b * 2 ^ Z.max 0 (floor_log2_ratio a b)
    <= a * 2 ^ Z.max 0 (- floor_log2_ratio a b).
Proof.
  intros Ha Hb. unfold floor_log2_ratio, below_pow2.
  set (k := Z.log2 a - Z.log2 b).
  destruct (Z.ltb_spec (a * 2 ^ Z.max 0 (- k)) (b * 2 ^ Z.max 0 k)) as [_|Hge];
    [|exact Hge].
  pose proof (Z.log2_spec a Ha) as [Hla _].
  pose proof (Z.log2_spec b Hb) as [_ Hlb].
  pose proof (Z.log2_nonneg a) as Hna. pose proof (Z.log2_nonneg b) as Hnb.
  destruct (Z.le_gt_cases 1 k) as [Hk|Hk].
  - rewrite (Z.max_r 0 (k - 1)) by lia. rewrite (Z.max_l 0 (- (k - 1))) by lia.
    rewrite Z.pow_0_r, Z.mul_1_r.
    assert (E : 2 ^ Z.log2 a = 2 ^ Z.succ (Z.log2 b) * 2 ^ (k - 1)).
    { rewrite <- Z.pow_add_r by lia. f_equal; unfold k; lia. }
    assert (0 < 2 ^ (k - 1)) by (apply Z.pow_pos_nonneg; lia).
    nia.
  - rewrite (Z.max_l 0 (k - 1)) by lia. rewrite (Z.max_r 0 (- (k - 1))) by lia.
    rewrite Z.pow_0_r, Z.mul_1_r.
    assert (E : 2 ^ Z.succ (Z.log2 b) = 2 ^ Z.log2 a * 2 ^ (- (k - 1))).
    { rewrite <- Z.pow_add_r by lia. f_equal; unfold k; lia. }
    assert (0 < 2 ^ (- (k - 1))) by (apply Z.pow_pos_nonneg; lia).
    nia.
Qed.

Lemma scaled_quotient (a b S : Z) :
  0 <= a -> 0 < b -> 0 < S -> b < 2 * S ->
  (a * S / b) / S = a / b
  /\ (b <= 2 * ((a * S) mod b) -> (a * S / b + 1) / S = a / b)
  /\ a * S / b + 1 <= (a / b + 1) * S.
Proof.
  intros Ha Hb HS HbS.
  pose proof (Z.div_mod a b ltac:(lia)) as Hab.
  pose proof (Z.mod_pos_bound a b Hb) as Hr.
  set (q := a / b) in *. set (r := a mod b) in *.
  assert (Hq : 0 <= q) by (apply Z.div_pos; lia).
  assert (En : a * S / b = q * S + r * S / b).
  { replace (a * S) with (q * S * b + r * S) by (rewrite Hab; ring).
    apply Z.div_add_l. lia. }
  pose proof (Z.div_mod (r * S) b ltac:(lia)) as Hw.
  pose proof (Z.mod_pos_bound (r * S) b Hb) as Hwr.
  assert (Em : (a * S) mod b = (r * S) mod b).
  { replace (a * S) with (r * S + q * S * b) by (rewrite Hab; ring).
    apply Z.mod_add. lia. }
  set (w := r * S / b) in *. set (z := (r * S) mod b) in *.
  assert (Hw0 : 0 <= w) by (apply Z.div_pos; nia).
  assert (HwS : w < S) by (apply Z.div_lt_upper_bound; nia).
  rewrite En, Em. split; [|split].
  - symmetry. apply (Z.div_unique _ _ q w); [lia|ring].
  - intros Hz. symmetry. apply (Z.div_unique _ _ q (w + 1)); [|ring].
    left. split; [lia|].
    assert (w + 1 <> S); [|lia].
    intros Ews. assert (Ew' : w = S - 1) by lia. rewrite Ew' in Hw. nia.
  - nia.
Qed.

Lemma nearest_double_exact (a b : Z) :
  0 < a < 2 ^ 53 -> 0 < b < 2 ^ 53 ->
  option_map float_trunc (nearest_double a b) = Some (a / b).
Proof.
  intros Ha Hb.
  pose proof (floor_log2_ratio_le a b ltac:(lia) ltac:(lia)) as HP.
  unfold nearest_double. set (e := floor_log2_ratio a b) in *.
  assert (He : e <= 52).
  { destruct (Z.le_gt_cases e 52) as [?|Hgt]; [assumption|exfalso].
    rewrite (Z.max_r 0 e), (Z.max_l 0 (- e)), Z.pow_0_r in HP by lia.
    assert (2 ^ 53 <= 2 ^ e) by (apply Z.pow_le_mono_r; lia). nia. }
  set (u := Z.max (e - 52) (-1074)).
  assert (Hu : u <= 0) by (unfold u; lia).
  rewrite (Z.max_l 0 u), (Z.max_r 0 (- u)), Z.pow_0_r, !Z.mul_1_r by lia.
  set (S := 2 ^ (- u)).
  assert (HS : 0 < S) by (apply Z.pow_pos_nonneg; lia).
  assert (HbS : b < 2 * S).
  { unfold S. change 2 with (2 ^ 1) at 1. rewrite <- Z.pow_add_r by lia.
    destruct (Z.le_gt_cases (-1074) (e - 52)) as [Hc|Hc].
    - replace (1 + - u) with (53 - e) by (unfold u; lia).
      destruct (Z.le_gt_cases 0 e) as [H0|H0].
      + rewrite (Z.max_r 0 e), (Z.max_l 0 (- e)), Z.pow_0_r in HP by lia.
        assert (E : 2 ^ 53 = 2 ^ e * 2 ^ (53 - e)).
        { rewrite <- Z.pow_add_r by lia. f_equal; lia. }
        assert (0 < 2 ^ e) by (apply Z.pow_pos_nonneg; lia). nia.
      + rewrite (Z.max_l 0 e), (Z.max_r 0 (- e)), Z.pow_0_r in HP by lia.
        assert (E : 2 ^ (53 - e) = 2 ^ 53 * 2 ^ (- e)).
        { rewrite <- Z.pow_add_r by lia. f_equal; lia. }
        assert (0 < 2 ^ (- e)) by (apply Z.pow_pos_nonneg; lia). nia.
    - replace (1 + - u) with 1075 by (unfold u; lia).
      assert (2 ^ 53 <= 2 ^ 1075) by (apply Z.pow_le_mono_r; lia). lia. }
  destruct (scaled_quotient a b S ltac:(lia) ltac:(lia) HS HbS) as (H1 & H2 & H3).
  assert (Hq : a / b < 2 ^ 53).
  { apply Z.div_lt_upper_bound; nia. }
  assert (H1024 : 2 ^ 53 <= 2 ^ 1024) by (apply Z.pow_le_mono_r; lia).
  destruct (round_half_even_cases (a * S) b) as [Em|[Em Hz]]; rewrite Em.
  - destruct (Z.leb_spec (2 ^ 1024 * S) (a * S / b)) as [Hov|_]; [exfalso; nia|].
    cbn [option_map float_trunc]. rewrite Z.max_l, Z.max_r, Z.pow_0_r, Z.mul_1_r by lia.
    fold S. rewrite H1. reflexivity.
  - destruct (Z.leb_spec (2 ^ 1024 * S) (a * S / b + 1)) as [Hov|_]; [exfalso; nia|].
    cbn [option_map float_trunc]. rewrite Z.max_l, Z.max_r, Z.pow_0_r, Z.mul_1_r by lia.
    fold S. rewrite (H2 Hz). reflexivity.
Qed.

Lemma int_truediv_exact (a : Z) (b : positive) :
  Z.abs a < 2 ^ 53 -> Zpos b < 2 ^ 53 ->
  int_truediv a b = Some (Z.quot a (Zpos b)).
Proof.
  intros Ha Hb. destruct a as [|p|p]; cbn [int_truediv].
  - reflexivity.
  - rewrite Z.quot_div_nonneg by lia. apply nearest_double_exact; lia.
  - pose proof (nearest_double_exact (Zpos p) (Zpos b) ltac:(lia) ltac:(lia)) as E.
    destruct (nearest_double (Zpos p) (Zpos b)) as [x|]; [|discriminate].
    cbn [option_map] in *. injection E as ->. f_equal.
    change (Zneg p) with (- Zpos p). rewrite Z.quot_opp_l by lia.
    rewrite Z.quot_div_nonneg by lia. reflexivity.
Qed.

(** [setFreq] on an integer below [2^53] in magnitude. *)
Lemma setFreq_exact {T : Type} {TT : Transport T} (hz : Z) :
  Z.abs hz < 2 ^ 53 ->
  setFreq (T:=T) hz
    = (comm_send [I2C_PACKET_ID; CMD_I2C_FREQ; Z.land (Z.quot hz 10000) 255];;
       comm_sendReset).
Proof.
  intros Hhz. unfold setFreq.
  rewrite (int_truediv_exact hz 10000 Hhz ltac:(reflexivity)). reflexivity.
Qed.

(** Unfolds the methods, the monad and the calls, down to the transport's
    own methods, and computes the trace as far as it is known. *)
Ltac reduce :=
  cbv beta iota zeta delta
    [result calls run setFreq writeRaw writeRegister readRaw readRegister
     mbind M_bind mret M_ret bind ret raise comm_send comm_receive
     comm_sendReset time_sleep printf getitem dict_getitem unbound_name emit
     I2C_PACKET_ID CMD_I2C_ADDRESS CMD_I2C_LENGTH CMD_I2C_FREQ
     CMD_I2C_WRITE_RESTART CMD_I2C_WRITE CMD_I2C_READ
     write_packet write_register_packet write_restart_packet
     read_request_packet read_packet yields link trace fst snd app sent received negb];
  cbn [data status lookup list_lookup].

Tactic Notation "reduce" "in" hyp(H) :=
  cbv beta iota zeta delta
    [write_packet write_register_packet write_restart_packet
     read_request_packet read_packet yields app] in H.

(** Names the next reply of the transport. *)
Ltac next_reply :=
  match goal with
  | |- context [receive ?n ?t] =>
      let r := fresh "r" in let t' := fresh "t" in let E := fresh "E" in
      destruct (receive n t) as [r t'] eqn:E; reduce
  end.

(** Splits on the test the code makes next. *)
Ltac next_test :=
  match goal with
  | |- context [if ?b then _ else _] => destruct b eqn:?; reduce
  | |- context [match ?l !! ?i with _ => _ end] => destruct (l !! i) eqn:?; reduce
  end.

(** ** What each method sends *)

Section Sends.
Context {T : Type} {TT : Transport T}.
Variable self : ArduBridgeI2C.

Lemma writeRaw_sent (dev : Z) (vByte : list Z) (t : T) :
  sent (calls (writeRaw self dev vByte) t) = [write_packet dev vByte].
Proof. reduce. next_reply. repeat next_test; reflexivity. Qed.

Lemma writeRegister_sent (dev reg : Z) (vByte : list Z) (t : T) :
  sent (calls (writeRegister self dev reg vByte) t)
    = [write_register_packet dev reg vByte].
Proof. reduce. next_reply. repeat next_test; reflexivity. Qed.

(** The first two calls of the write methods, whatever follows. *)
Lemma writeRaw_calls (dev : Z) (vByte : list Z) (t : T) :
  exists more,
    calls (writeRaw self dev vByte) t
      = EvSend (write_packet dev vByte) :: EvReceive 1 :: more.
Proof. reduce. next_reply. repeat next_test; eexists; reflexivity. Qed.

Lemma writeRegister_calls (dev reg : Z) (vByte : list Z) (t : T) :
  exists more,
    calls (writeRegister self dev reg vByte) t
      = EvSend (write_register_packet dev reg vByte) :: EvReceive 1 :: more.
Proof. reduce. next_reply. repeat next_test; eexists; reflexivity. Qed.

(** With the verbose flag off the write methods return the transport's
    reply as it came. *)
Lemma writeRaw_quiet (dev : Z) (vByte : list Z) (t : T) :
  v self = false ->
  result (writeRaw self dev vByte) t
    = Returns (fst (receive 1 (send (write_packet dev vByte) t))).
Proof. intros Hv. reduce. next_reply. rewrite Hv. reflexivity. Qed.

Lemma writeRegister_quiet (dev reg : Z) (vByte : list Z) (t : T) :
  v self = false ->
  result (writeRegister self dev reg vByte) t
    = Returns (fst (receive 1 (send (write_register_packet dev reg vByte) t))).
Proof. intros Hv. reduce. next_reply. rewrite Hv. reflexivity. Qed.

(** Without a delay [readRegister] sends once, both halves together. *)
Lemma readRegister_sent_nodelay (dev reg N : Z) (delay : Q) (t : T) :
  Qle_bool delay 0 = true ->
  sent (calls (readRegister self dev reg N delay) t)
    = [write_restart_packet dev reg ++ read_request_packet N].
Proof.
  intros Hd. reduce. rewrite Hd. reduce.
  next_reply. next_test; [|reflexivity].
  next_reply. next_test; [|reflexivity].
  next_test; [|reflexivity].
  next_reply. next_test; reflexivity.
Qed.

(** With a delay it sends the register selection, and the read request
    only after an acceptable acknowledgment. *)
Lemma readRegister_sent_delay (dev reg N : Z) (delay : Q) (t : T) :
  Qle_bool delay 0 = false ->
  sent (calls (readRegister self dev reg N delay) t)
    = if ack_ok (fst (receive 1 (send (write_restart_packet dev reg) t)))
      then [write_restart_packet dev reg; read_request_packet N]
      else [write_restart_packet dev reg].
Proof.
  intros Hd. reduce. rewrite Hd. reduce.
  next_reply. next_test; [|reflexivity].
  next_test; next_reply; (next_test; [|reflexivity]);
    (next_test; [|reflexivity]); next_reply; next_test; reflexivity.
Qed.

End Sends.

(** ** Wire packets *)

Section Wire.
Context {T : Type} {TT : Transport T}.
Variable self : ArduBridgeI2C.

(** C1. For every device address, register and payload,
    [writeRegister(dev, reg, vByte)] hands the transport exactly one packet,
    ['2','A',dev,'L',len(vByte)+1,'W',reg] followed by the payload; for
    [dev=0x14, reg=0x10, vByte=[0,1,2]] that packet is
    ['2','A',0x14,'L',4,'W',0x10,0x00,0x01,0x02]. *)
Theorem writeRegister_wire (dev reg : Z) (vByte : list Z) (t : T) :
  sent (calls (writeRegister self dev reg vByte) t)
    = [[ord "2"; ord "A"; dev; ord "L"; len vByte + 1; ord "W"; reg] ++ vByte]
  /\ sent (calls (writeRegister self 0x14 0x10 [0; 1; 2]) t)
    = [[ord "2"; ord "A"; 0x14; ord "L"; 4; ord "W"; 0x10; 0x00; 0x01; 0x02]].
Proof. split; apply writeRegister_sent. Qed.

(** C4 as the code has it. For every integer [hz] below [2^53] in
    magnitude, [setFreq(hz)] hands the transport the three-byte packet
    ['2','F',b], where [b] is [hz] divided by 10000, truncated toward zero
    and reduced to eight bits (so 500000 gives 50 and 2560000 wraps to 0),
    then at once the bus reset, and asks for no reply. *)
Theorem setFreq_wire (hz : Z) (t : T) :
  Z.abs hz < 2 ^ 53 ->
  let b := (Z.quot hz 10000) mod 256 in
  calls (setFreq hz) t = [EvSend [ord "2"; ord "F"; b]; EvReset]
  /\ 0 <= b < 256
  /\ received (calls (setFreq hz) t) = []
  /\ result (setFreq hz) t = Returns tt
  /\ calls (setFreq 500000) t = [EvSend [ord "2"; ord "F"; 50]; EvReset]
  /\ calls (setFreq 2560000) t = [EvSend [ord "2"; ord "F"; 0]; EvReset].
Proof.
  intros Hhz b.
  assert (E : Z.land (Z.quot hz 10000) 255 = b).
  { unfold b. change 255 with (Z.ones 8). rewrite Z.land_ones by lia. reflexivity. }
  rewrite (setFreq_exact hz Hhz).
  rewrite (setFreq_exact 500000 ltac:(reflexivity)).
  rewrite (setFreq_exact 2560000 ltac:(reflexivity)).
  reduce. rewrite E.
  repeat split; apply Z.mod_pos_bound; lia.
Qed.

(** C8. In the packet of [writeRaw], the packet of [writeRegister] and the
    write-restart segment of [readRegister], the element in the
    PayloadLength position is the number of bytes that follow the command
    in that segment, the register byte included: [len(vByte)],
    [len(vByte)+1] and [1]. *)
Theorem payload_length_invariant (dev reg N : Z) (vByte : list Z) (delay : Q) (t : T) :
  (exists seg,
     sent (calls (writeRaw self dev vByte) t) = [seg]
     /\ length_matches seg /\ drop 6 seg = vByte
     /\ seg !! 4%nat = Some (len vByte))
  /\ (exists seg,
     sent (calls (writeRegister self dev reg vByte) t) = [seg]
     /\ length_matches seg /\ drop 6 seg = reg :: vByte
     /\ seg !! 4%nat = Some (len vByte + 1))
  /\ (exists seg rest more,
     sent (calls (readRegister self dev reg N delay) t) = (seg ++ rest) :: more
     /\ seg !! 5%nat = Some (ord "w")
     /\ length_matches seg /\ drop 6 seg = [reg]
     /\ seg !! 4%nat = Some 1).
Proof.
  split; [|split].
  - exists (write_packet dev vByte). rewrite writeRaw_sent.
    repeat split.
  - exists (write_register_packet dev reg vByte). rewrite writeRegister_sent.
    repeat split. unfold length_matches. cbn. f_equal. unfold len. cbn [length]. lia.
  - exists (write_restart_packet dev reg).
    destruct (Qle_bool delay 0) eqn:Hd.
    + exists (read_request_packet N), []. rewrite readRegister_sent_nodelay by exact Hd.
      repeat split.
    + rewrite readRegister_sent_delay by exact Hd.
      destruct (ack_ok _).
      * exists [], [read_request_packet N]. repeat split.
      * exists [], []. repeat split.
Qed.

End Wire.

(** ** Round trips *)

Section RoundTrips.
Context {T : Type} {TT : Transport T}.
Variable self : ArduBridgeI2C.

(** C2. Without a delay [readRegister(dev, reg, n)] sends once, the
    write-restart packet and the read request in one piece,
    ['2','A',dev,'L',1,'w',reg,'2','L',n,'R']; and when the transport then
    yields an acknowledgment byte, a count byte [k] and the payload for
    [receive(k)], the call returns that payload. *)
Theorem readRegister_combined (dev reg N : Z) (t : T) :
  sent (calls (readRegister self dev reg N 0) t)
    = [[ord "2"; ord "A"; dev; ord "L"; 1; ord "w"; reg;
        ord "2"; ord "L"; N; ord "R"]]
  /\ (forall s1 a s2 k s3 payload t1 t2 t3,
        yields (send (write_restart_packet dev reg ++ read_request_packet N) t) 1
               (mkReply s1 [a]) t1 ->
        s1 <> 0 -> s1 <> -1 ->
        yields t1 1 (mkReply s2 [k]) t2 -> s2 <> 0 ->
        yields t2 k (mkReply s3 payload) t3 -> s3 <> 0 ->
        result (readRegister self dev reg N 0) t = Returns (VList payload)).
Proof.
  split.
  - apply (readRegister_sent_nodelay self dev reg N 0 t). reflexivity.
  - intros s1 a s2 k s3 payload t1 t2 t3 E1 Hs1 Hs1' E2 Hs2 E3 Hs3.
    reduce in E1. reduce in E2. reduce in E3.
    reduce. change (Qle_bool 0 0) with true. reduce.
    rewrite E1. reduce. rewrite (ack_ok_true s1 [a] Hs1 Hs1'). reduce.
    rewrite E2. reduce. rewrite (got_byte_true s2 [k] Hs2). reduce.
    rewrite E3. reduce. rewrite (got_byte_true s3 payload Hs3). reflexivity.
Qed.

(** C3 as the code has it. [readRegister] never looks at the value of the
    acknowledgment byte.  When the acknowledgment receive reports status
    [0] or [-1] the call returns [-1] and receives nothing more; on any
    other status it goes on to receive the count byte, whatever the
    acknowledgment byte is, a firmware error code such as [0x4C]
    included. *)
Theorem readRegister_ack_gate (dev reg N : Z) (delay : Q) (t : T) :
  forall s d t1,
    yields (send (if Qle_bool delay 0
                  then write_restart_packet dev reg ++ read_request_packet N
                  else write_restart_packet dev reg) t) 1 (mkReply s d) t1 ->
    (s = 0 \/ s = -1 ->
       result (readRegister self dev reg N delay) t = Returns (VInt (-1))
       /\ received (calls (readRegister self dev reg N delay) t) = [1])
    /\ (s <> 0 -> s <> -1 ->
       exists more,
         received (calls (readRegister self dev reg N delay) t) = 1 :: 1 :: more).
Proof.
  intros s d t1 E. split.
  - intros Hs. reduce. destruct (Qle_bool delay 0); reduce in E; reduce;
      rewrite E; reduce; rewrite (ack_ok_false s d Hs); reduce; split; reflexivity.
  - intros Hs Hs'. reduce. destruct (Qle_bool delay 0); reduce in E; reduce;
      rewrite E; reduce; rewrite (ack_ok_true s d Hs Hs'); reduce;
      repeat next_test; next_reply; repeat next_test;
      try (eexists; reflexivity);
      next_reply; repeat next_test; eexists; reflexivity.
Qed.

(** C6 as the code has it. [readRaw] tests the status of the count
    receive, not the count byte.  On status [0] it returns [-1] and
    receives nothing more; on any other status a count byte [k], zero or an
    error code included, is followed by one [receive(k)]. *)
Theorem readRaw_count_gate (dev N : Z) (t : T) :
  forall s d t1,
    yields (send (read_packet dev N) t) 1 (mkReply s d) t1 ->
    (s = 0 ->
       result (readRaw self dev N) t = Returns (VInt (-1))
       /\ received (calls (readRaw self dev N) t) = [1])
    /\ (s <> 0 -> forall k rest, d = k :: rest ->
       received (calls (readRaw self dev N) t) = [1; k]).
Proof.
  intros s d t1 E. reduce in E. split.
  - intros ->. reduce. rewrite E. reduce. split; reflexivity.
  - intros Hs k rest ->. reduce. rewrite E. reduce.
    rewrite (got_byte_true s (k :: rest) Hs). reduce.
    next_reply. next_test; reflexivity.
Qed.

(** C7 as the code has it. With a positive delay, when the
    acknowledgment receive reports a status other than [0] and [-1],
    whatever the acknowledgment byte, [readRegister] sends exactly twice,
    the write-restart packet and then the read request, with
    [time.sleep(delay)] called between the two; when the acknowledgment
    receive reports status [0] or [-1] it sends nothing for the read
    phase. *)
Theorem readRegister_delayed (dev reg N : Z) (delay : Q) (t : T) :
  (0 < delay)%Q ->
  forall s d t1,
    yields (send (write_restart_packet dev reg) t) 1 (mkReply s d) t1 ->
    (s <> 0 -> s <> -1 ->
       sent (calls (readRegister self dev reg N delay) t)
         = [write_restart_packet dev reg; read_request_packet N]
       /\ exists more,
           calls (readRegister self dev reg N delay) t
             = [EvSend (write_restart_packet dev reg); EvReceive 1;
                EvSleep delay; EvSend (read_request_packet N)] ++ more
           /\ sent more = [])
    /\ (s = 0 \/ s = -1 ->
       sent (calls (readRegister self dev reg N delay) t)
         = [write_restart_packet dev reg]
       /\ received (calls (readRegister self dev reg N delay) t) = [1]
       /\ result (readRegister self dev reg N delay) t = Returns (VInt (-1))).
Proof.
  intros Hd s d t1 E. destruct (Qgt_bool_pos delay Hd) as [Hgt Hle].
  reduce in E. split.
  - intros Hs Hs'. split.
    + rewrite readRegister_sent_delay by exact Hle. reduce. rewrite E.
      reduce. rewrite (ack_ok_true s d Hs Hs'). reflexivity.
    + reduce. rewrite Hle. reduce. rewrite E. reduce.
      rewrite (ack_ok_true s d Hs Hs'). reduce. rewrite Hgt. reduce.
      next_reply. repeat next_test; try (eexists; split; reflexivity).
      next_reply. next_test; eexists; split; reflexivity.
  - intros Hs. reduce. rewrite Hle. reduce. rewrite E. reduce.
    rewrite (ack_ok_false s d Hs). reduce. repeat split.
Qed.

(** C9. With the verbose flag on, every [writeRaw(dev, vByte)] whose status
    receive succeeds raises [NameError] for the name [reg] and returns
    nothing. *)
Theorem writeRaw_verbose_NameError (dev : Z) (vByte : list Z) (t : T) :
  v self = true ->
  forall s b rest t1,
    yields (send (write_packet dev vByte) t) 1 (mkReply s (b :: rest)) t1 ->
    s <> 0 ->
    result (writeRaw self dev vByte) t = Raises (NameError "reg").
Proof.
  intros Hv s b rest t1 E Hs. reduce in E. reduce. rewrite E. reduce.
  rewrite Hv, (got_byte_true s (b :: rest) Hs). reflexivity.
Qed.

(** C5 as the code has it. The write methods make no check on the payload
    length.  For a payload of more than 255 bytes they hand the transport
    the packet whose length element is the integer [len(vByte)]
    ([len(vByte)+1] for [writeRegister]), above 255 and not reduced, ask
    for the status byte, and with the verbose flag off return the
    transport's reply. *)
Theorem write_length_unchecked (dev reg : Z) (vByte : list Z) (t : T) :
  255 < len vByte ->
  (exists more,
     calls (writeRaw self dev vByte) t
       = EvSend (write_packet dev vByte) :: EvReceive 1 :: more)
  /\ (exists n, write_packet dev vByte !! 4%nat = Some n
                /\ n = len vByte /\ 255 < n)
  /\ (exists more,
     calls (writeRegister self dev reg vByte) t
       = EvSend (write_register_packet dev reg vByte) :: EvReceive 1 :: more)
  /\ (exists n, write_register_packet dev reg vByte !! 4%nat = Some n
                /\ n = len vByte + 1 /\ 255 < n)
  /\ (v self = false ->
      result (writeRaw self dev vByte) t
        = Returns (fst (receive 1 (send (write_packet dev vByte) t)))
      /\ result (writeRegister self dev reg vByte) t
        = Returns (fst (receive 1 (send (write_register_packet dev reg vByte) t)))).
Proof.
  intros Hlong. split; [apply writeRaw_calls|].
  split; [exists (len vByte); repeat split; exact Hlong|].
  split; [apply writeRegister_calls|].
  split; [exists (len vByte + 1); repeat split; lia|].
  intros Hv. split; [apply writeRaw_quiet|apply writeRegister_quiet]; exact Hv.
Qed.


End RoundTrips.

(** The scenario of C2 on the scripted transport: acknowledgment [0x01],
    count [0x03], payload [0x11,0x22,0x33]. *)
Lemma readRegister_combined_scenario :
  sent (calls (readRegister (mkSelf false) 0x14 0x10 3 0)
          (script [mkReply 1 [0x01]; mkReply 1 [0x03]; mkReply 1 [0x11; 0x22; 0x33]]))
    = [[0x32; 0x41; 0x14; 0x4C; 1; 0x77; 0x10; 0x32; 0x4C; 3; 0x52]]
  /\ result (readRegister (mkSelf false) 0x14 0x10 3 0)
        (script [mkReply 1 [0x01]; mkReply 1 [0x03]; mkReply 1 [0x11; 0x22; 0x33]])
     = Returns (VList [0x11; 0x22; 0x33]).
Proof.
  split.
  - apply (proj1 (readRegister_combined (mkSelf false) 0x14 0x10 3 _)).
  - apply (proj2 (readRegister_combined (mkSelf false) 0x14 0x10 3 _)
             1 0x01 1 0x03 1 [0x11; 0x22; 0x33]
             (script [mkReply 1 [0x03]; mkReply 1 [0x11; 0x22; 0x33]])
             (script [mkReply 1 [0x11; 0x22; 0x33]])
             (script []));
      try reflexivity; lia.
Defined.

(** ** The scenarios on the scripted transport *)

(** C3 fails as stated: after the acknowledgment byte [0x4C] the call
    receives the count and the payload, and returns the payload. *)
Lemma readRegister_error_ack_reads_on :
  result (readRegister (mkSelf false) 0x14 0x10 3 0) error_ack_script
    = Returns (VList [0x11; 0x22; 0x33])
  /\ received (calls (readRegister (mkSelf false) 0x14 0x10 3 0) error_ack_script)
    = [1; 1; 3].
Proof. split; vm_compute; reflexivity. Qed.

Lemma readRegister_ack_gate_scenario :
  exists more,
    received (calls (readRegister (mkSelf false) 0x14 0x10 3 0) error_ack_script)
      = 1 :: 1 :: more.
Proof.
  apply (proj2 (readRegister_ack_gate (TT:=Scripted_transport) (mkSelf false) 0x14 0x10 3 0 error_ack_script
                  1 [0x4C]
                  (script [mkReply 1 [0x03]; mkReply 1 [0x11; 0x22; 0x33]])
                  ltac:(reflexivity))); lia.
Defined.

(** C5 fails as stated: a 256-byte payload is sent, with the length
    element [256] ([257] with the register), and the reply is returned. *)
Lemma write_long_payload_is_sent :
  result (writeRaw (mkSelf false) 0x14 long_payload) (script [mkReply 1 [0x4E]])
    = Returns (mkReply 1 [0x4E])
  /\ sent (calls (writeRaw (mkSelf false) 0x14 long_payload) (script [mkReply 1 [0x4E]]))
    = [[0x32; 0x41; 0x14; 0x4C; 256; 0x57] ++ long_payload]
  /\ result (writeRegister (mkSelf false) 0x14 0x10 long_payload)
       (script [mkReply 1 [0x4E]])
    = Returns (mkReply 1 [0x4E])
  /\ sent (calls (writeRegister (mkSelf false) 0x14 0x10 long_payload)
             (script [mkReply 1 [0x4E]]))
    = [[0x32; 0x41; 0x14; 0x4C; 257; 0x57; 0x10] ++ long_payload].
Proof. repeat split; vm_compute; reflexivity. Qed.

Lemma write_length_unchecked_scenario :
  exists n, write_packet 0x14 long_payload !! 4%nat = Some n /\ n = 256 /\ 255 < n.
Proof.
  apply (proj1 (proj2 (write_length_unchecked (TT:=Scripted_transport) (mkSelf false) 0x14 0x10 long_payload
                         (script [mkReply 1 [0x4E]]) ltac:(reflexivity)))).
Defined.

(** C6 fails as stated: after the count byte [0] the call asks the
    transport for zero bytes; after the count byte [0x4C] it asks for 76;
    and after a count receive with the error status [-1] it asks for the
    bytes all the same. *)
Lemma readRaw_zero_count_receives_again :
  calls (readRaw (mkSelf false) 0x14 3) (script [mkReply 1 [0]])
    = [EvSend [0x32; 0x41; 0x14; 0x4C; 3; 0x52]; EvReceive 1; EvReceive 0;
       EvPrintf "I2C-RD: Dev%d - Error" [ArgInt 0x14] false]
  /\ received (calls (readRaw (mkSelf false) 0x14 3) (script [mkReply 1 [0x4C]]))
    = [1; 0x4C]
  /\ received (calls (readRaw (mkSelf false) 0x14 3) (script [mkReply (-1) [3]]))
    = [1; 3].
Proof. repeat split; vm_compute; reflexivity. Qed.

Lemma readRaw_count_gate_scenario :
  received (calls (readRaw (mkSelf false) 0x14 3) (script [mkReply 1 [0]])) = [1; 0]
  /\ result (readRaw (mkSelf false) 0x14 3) (script [mkReply 0 []]) = Returns (VInt (-1))
  /\ received (calls (readRaw (mkSelf false) 0x14 3) (script [mkReply 0 []])) = [1].
Proof.
  split.
  - apply (proj2 (readRaw_count_gate (TT:=Scripted_transport) (mkSelf false) 0x14 3 (script [mkReply 1 [0]])
                    1 [0] (script []) ltac:(reflexivity)) ltac:(lia) 0 [] ltac:(reflexivity)).
  - apply (proj1 (readRaw_count_gate (TT:=Scripted_transport) (mkSelf false) 0x14 3 (script [mkReply 0 []])
                    0 [] (script []) ltac:(reflexivity)) ltac:(reflexivity)).
Defined.

(** C7 with half a second between the two sends. *)
Lemma readRegister_delayed_scenario :
  sent (calls (readRegister (mkSelf false) 0x14 0x10 3 (1 # 2))
          (script [mkReply 1 [0x01]; mkReply 1 [0x03]; mkReply 1 [0x11; 0x22; 0x33]]))
    = [write_restart_packet 0x14 0x10; read_request_packet 3]
  /\ exists more,
      calls (readRegister (mkSelf false) 0x14 0x10 3 (1 # 2))
        (script [mkReply 1 [0x01]; mkReply 1 [0x03]; mkReply 1 [0x11; 0x22; 0x33]])
        = [EvSend (write_restart_packet 0x14 0x10); EvReceive 1;
           EvSleep (1 # 2); EvSend (read_request_packet 3)] ++ more
      /\ sent more = [].
Proof.
  apply (proj1 (readRegister_delayed (TT:=Scripted_transport) (mkSelf false) 0x14 0x10 3 (1 # 2)
                  (script [mkReply 1 [0x01]; mkReply 1 [0x03];
                           mkReply 1 [0x11; 0x22; 0x33]])
                  ltac:(reflexivity) 1 [0x01]
                  (script [mkReply 1 [0x03]; mkReply 1 [0x11; 0x22; 0x33]])
                  ltac:(reflexivity))); lia.
Defined.

(** C9 on a bridge that answers ['N']. *)
Lemma writeRaw_verbose_NameError_scenario :
  result (writeRaw (mkSelf true) 0x14 [0; 1; 2]) (script [mkReply 1 [0x4E]])
    = Raises (NameError "reg").
Proof.
  apply (writeRaw_verbose_NameError (TT:=Scripted_transport) (mkSelf true) 0x14 [0; 1; 2]
           (script [mkReply 1 [0x4E]]) ltac:(reflexivity) 1 0x4E [] (script []) ltac:(reflexivity)).
  lia.
Defined.



(** C7 fails as stated: with half a second of delay and the length error
    ['L'] as acknowledgment byte, the call sleeps, sends the read request
    and returns the payload. *)
Lemma readRegister_delayed_error_ack_sends_read :
  sent (calls (readRegister (mkSelf false) 0x14 0x10 3 (1 # 2)) error_ack_script)
    = [write_restart_packet 0x14 0x10; read_request_packet 3]
  /\ sleeps (calls (readRegister (mkSelf false) 0x14 0x10 3 (1 # 2)) error_ack_script)
    = [1 # 2]
  /\ result (readRegister (mkSelf false) 0x14 0x10 3 (1 # 2)) error_ack_script
    = Returns (VList [0x11; 0x22; 0x33]).
Proof. repeat split; vm_compute; reflexivity. Qed.

(** C4 fails as stated: at 10995116277769999 Hz the double nearest to the
    quotient is the next integer, so the byte sent is 1 where the
    truncated quotient gives 0; at [10^400] Hz the division overflows and
    nothing is sent. *)
Lemma setFreq_beyond_double_precision :
  calls (setFreq 10995116277769999) (script [])
    = [EvSend [0x32; 0x46; 1]; EvReset]
  /\ (Z.quot 10995116277769999 10000) mod 256 = 0
  /\ result (setFreq (10 ^ 400)) (script []) = Raises OverflowError
  /\ calls (setFreq (10 ^ 400)) (script []) = [].
Proof. repeat split; vm_compute; reflexivity. Qed.

(** C4 at 400 kHz. *)
Lemma setFreq_wire_scenario :
  calls (setFreq 400000) (script []) = [EvSend [ord "2"; ord "F"; 40]; EvReset].
Proof.
  apply (proj1 (setFreq_wire (TT:=Scripted_transport) 400000 (script [])
                  ltac:(reflexivity))).
Defined.


(** ** Further properties of the bus class *)

(** [reduce] extended to the other observations on a trace. *)
Ltac observe :=
  reduce; cbv beta iota zeta delta [sleeps resets concat app].

Ltac observe_reply :=
  match goal with
  | |- context [receive ?n ?t] =>
      let r := fresh "r" in let t' := fresh "t" in let E := fresh "E" in
      destruct (receive n t) as [r t'] eqn:E; observe
  end.

Ltac observe_test :=
  match goal with
  | |- context [if ?b then _ else _] => destruct b eqn:?; observe
  | |- context [match ?l !! ?i with _ => _ end] => destruct (l !! i) eqn:?; observe
  end.

Lemma len_cons (x : Z) (l : list Z) : len (x :: l) = len l + 1.
Proof. unfold len. cbn [length]. lia. Qed.

(** The six codes of [self.ERROR] and their names. *)
Lemma ERROR_names :
  ERROR !! 0x4E = Some "OK" /\ ERROR !! 0x55 = Some "UNESCAPE" /\
  ERROR !! 0x4C = Some "LENGTH" /\ ERROR !! 0x52 = Some "READ" /\
  ERROR !! 0x57 = Some "WRITE-DATA" /\ ERROR !! 0x53 = Some "SEND-DATA".
Proof. repeat split; vm_compute; reflexivity. Qed.

Lemma ERROR_other (b : Z) :
  b <> 0x4E -> b <> 0x55 -> b <> 0x4C -> b <> 0x52 -> b <> 0x57 -> b <> 0x53 ->
  ERROR !! b = None.
Proof.
  intros. unfold ERROR, ERROR_NONE, ERROR_UNESCAPE, ERROR_LENGTH, ERROR_READ,
    ERROR_WRITEDATA, ERROR_SENDDATA.
  change (ord "N") with 0x4E. change (ord "U") with 0x55.
  change (ord "L") with 0x4C. change (ord "R") with 0x52.
  change (ord "W") with 0x57. change (ord "S") with 0x53.
  rewrite !lookup_insert_ne by congruence. apply lookup_empty.
Qed.

Section BusMore.
Context {T : Type} {TT : Transport T}.
Variable self : ArduBridgeI2C.

(** X1. [writeRaw(dev, vByte)] makes one send, the packet
    ['2','A',dev,'L',len(vByte),'W'] followed by the payload, and one
    [receive(1)]; with the verbose flag off these are its only calls and it
    returns the transport's reply as it came. *)
Theorem writeRaw_one_round (dev : Z) (vByte : list Z) (t : T) :
  sent (calls (writeRaw self dev vByte) t)
    = [[ord "2"; ord "A"; dev; ord "L"; len vByte; ord "W"] ++ vByte]
  /\ received (calls (writeRaw self dev vByte) t) = [1]
  /\ (v self = false ->
      calls (writeRaw self dev vByte) t
        = [EvSend (write_packet dev vByte); EvReceive 1]
      /\ result (writeRaw self dev vByte) t
        = Returns (fst (receive 1 (send (write_packet dev vByte) t)))).
Proof.
  split; [apply writeRaw_sent|]. split.
  - observe. observe_reply. repeat observe_test; reflexivity.
  - intros Hv. split; [|apply writeRaw_quiet; exact Hv].
    observe. observe_reply. rewrite Hv. reflexivity.
Qed.

(** X2. [writeRegister(dev, reg, vByte)] puts on the wire what
    [writeRaw(dev, [reg]+vByte)] puts there, and with the verbose flag off
    the two calls are indistinguishable: same calls, same reply, same
    transport state afterwards. *)
Theorem writeRegister_as_writeRaw (dev reg : Z) (vByte : list Z) (t : T) :
  sent (calls (writeRegister self dev reg vByte) t)
    = sent (calls (writeRaw self dev (reg :: vByte)) t)
  /\ (v self = false ->
      run (writeRegister self dev reg vByte) t
        = run (writeRaw self dev (reg :: vByte)) t).
Proof.
  split.
  - rewrite writeRegister_sent, writeRaw_sent.
    unfold write_register_packet, write_packet. rewrite len_cons. reflexivity.
  - intros Hv. observe. rewrite len_cons, Hv. reflexivity.
Qed.

(** X3. With the verbose flag on, [writeRegister] reports a status byte
    that is one of the six firmware codes by one [printf] carrying the
    code's name, and returns the reply; when the status receive reports
    [0] it prints nothing. *)
Theorem writeRegister_verbose_report (dev reg : Z) (vByte : list Z) (t : T) :
  v self = true ->
  forall s d t1,
    yields (send (write_register_packet dev reg vByte) t) 1 (mkReply s d) t1 ->
    (s = 0 ->
       result (writeRegister self dev reg vByte) t = Returns (mkReply s d)
       /\ calls (writeRegister self dev reg vByte) t
          = [EvSend (write_register_packet dev reg vByte); EvReceive 1])
    /\ (s <> 0 -> forall b rest name,
       d = b :: rest -> ERROR !! b = Some name ->
       result (writeRegister self dev reg vByte) t = Returns (mkReply s d)
       /\ calls (writeRegister self dev reg vByte) t
          = [EvSend (write_register_packet dev reg vByte); EvReceive 1;
             EvPrintf "I2C-WR: Dev-0x%02x, Reg%d - %s"
                      [ArgInt dev; ArgInt reg; ArgText name] true]).
Proof.
  intros Hv s d t1 E. reduce in E. split.
  - intros ->. observe. rewrite E. observe. rewrite Hv. split; reflexivity.
  - intros Hs b rest name -> Hb. observe. rewrite E. observe.
    rewrite Hv, (got_byte_true s (b :: rest) Hs). observe.
    rewrite Hb. split; reflexivity.
Qed.

(** X4. With the verbose flag on, [writeRegister] raises instead of
    returning when the status byte is not one of the six codes
    ([KeyError], for instance on the byte [0x01]) or when the reply claims
    a byte and carries none ([IndexError]); the packet has been sent by
    then. *)
Theorem writeRegister_verbose_errors (dev reg : Z) (vByte : list Z) (t : T) :
  v self = true ->
  forall s d t1,
    yields (send (write_register_packet dev reg vByte) t) 1 (mkReply s d) t1 ->
    s <> 0 ->
    (d = [] ->
       result (writeRegister self dev reg vByte) t = Raises IndexError)
    /\ (forall b rest,
       d = b :: rest ->
       b <> 0x4E -> b <> 0x55 -> b <> 0x4C -> b <> 0x52 -> b <> 0x57 -> b <> 0x53 ->
       result (writeRegister self dev reg vByte) t = Raises (KeyError b))
    /\ sent (calls (writeRegister self dev reg vByte) t)
       = [write_register_packet dev reg vByte].
Proof.
  intros Hv s d t1 E Hs. split; [|split]; [| |apply writeRegister_sent].
  - intros ->. reduce in E. observe. rewrite E. observe.
    rewrite Hv, (got_byte_true s [] Hs). reflexivity.
  - intros b rest -> H1 H2 H3 H4 H5 H6. reduce in E. observe. rewrite E. observe.
    rewrite Hv, (got_byte_true s (b :: rest) Hs). observe.
    rewrite (ERROR_other b H1 H2 H3 H4 H5 H6). reflexivity.
Qed.

(** X5. [readRaw(dev, N)] makes one send, ['2','A',dev,'L',N,'R']; when
    the count receive and the payload receive both report a nonzero
    status, it asks for exactly as many bytes as the count byte says and
    returns what that receive hands back. *)
Theorem readRaw_success (dev N : Z) (t : T) :
  sent (calls (readRaw self dev N) t)
    = [[ord "2"; ord "A"; dev; ord "L"; N; ord "R"]]
  /\ (forall s k rest t1 s' payload t2,
        yields (send (read_packet dev N) t) 1 (mkReply s (k :: rest)) t1 ->
        s <> 0 ->
        yields t1 k (mkReply s' payload) t2 -> s' <> 0 ->
        result (readRaw self dev N) t = Returns (VList payload)
        /\ received (calls (readRaw self dev N) t) = [1; k]).
Proof.
  split.
  - observe. observe_reply. observe_test; [|reflexivity].
    observe_test; [|reflexivity]. observe_reply. observe_test; reflexivity.
  - intros s k rest t1 s' payload t2 E1 Hs E2 Hs'. reduce in E1. reduce in E2.
    observe. rewrite E1. observe. rewrite (got_byte_true s (k :: rest) Hs).
    observe. rewrite E2. observe. rewrite (got_byte_true s' payload Hs').
    split; reflexivity.
Qed.

(** X6. Whatever the transport does, [readRaw] and [readRegister] end in
    one of three ways: they return [-1], they return a list, or they raise
    [IndexError]; no other integer and no other exception comes out. *)
Theorem read_outcomes (dev reg N : Z) (delay : Q) (t : T) :
  (result (readRaw self dev N) t = Returns (VInt (-1))
   \/ (exists l, result (readRaw self dev N) t = Returns (VList l))
   \/ result (readRaw self dev N) t = Raises IndexError)
  /\ (result (readRegister self dev reg N delay) t = Returns (VInt (-1))
   \/ (exists l, result (readRegister self dev reg N delay) t = Returns (VList l))
   \/ result (readRegister self dev reg N delay) t = Raises IndexError).
Proof.
  split.
  - observe. observe_reply. observe_test; [|left; reflexivity].
    observe_test; [|right; right; reflexivity].
    observe_reply. observe_test; [right; left; eexists|left]; reflexivity.
  - observe. destruct (Qle_bool delay 0); observe; observe_reply;
      (observe_test; [|left; reflexivity]);
      repeat match goal with
             | |- context [if Qgt_bool ?a ?b then _ else _] =>
                 destruct (Qgt_bool a b); observe
             end;
      observe_reply; (observe_test; [|left; reflexivity]);
      (observe_test; [|right; right; reflexivity]);
      observe_reply; (observe_test; [right; left; eexists|left]); reflexivity.
Qed.

(** X7. [readRaw] calls [receive] once or twice and [readRegister] one to
    three times; every receive but the last of a complete read asks for a
    single byte. *)
Theorem read_receive_shape (dev reg N : Z) (delay : Q) (t : T) :
  (received (calls (readRaw self dev N) t) = [1]
   \/ exists k, received (calls (readRaw self dev N) t) = [1; k])
  /\ (received (calls (readRegister self dev reg N delay) t) = [1]
   \/ received (calls (readRegister self dev reg N delay) t) = [1; 1]
   \/ exists k, received (calls (readRegister self dev reg N delay) t) = [1; 1; k]).
Proof.
  split.
  - observe. observe_reply. observe_test; [|left; reflexivity].
    observe_test; [|left; reflexivity].
    observe_reply. observe_test; right; eexists; reflexivity.
  - observe. destruct (Qle_bool delay 0); observe; observe_reply;
      (observe_test; [|left; reflexivity]);
      repeat match goal with
             | |- context [if Qgt_bool ?a ?b then _ else _] =>
                 destruct (Qgt_bool a b); observe
             end;
      observe_reply; (observe_test; [|right; left; reflexivity]);
      (observe_test; [|right; left; reflexivity]);
      observe_reply; observe_test; right; right; eexists; reflexivity.
Qed.

(** X8. A zero or negative [delay] is the same call as [delay = 0]: the
    same calls in the same order, the same result, the same transport
    state afterwards. *)
Theorem readRegister_nonpositive_delay (dev reg N : Z) (delay : Q) (t : T) :
  (delay <= 0)%Q ->
  run (readRegister self dev reg N delay) t = run (readRegister self dev reg N 0) t.
Proof.
  intros Hd. apply Qle_bool_iff in Hd.
  unfold run, readRegister. rewrite Hd. change (Qle_bool 0 0) with true.
  reflexivity.
Qed.

(** X9. [readRegister] calls [time.sleep] at most once, with [delay]
    itself and only when [delay] is positive; it never sleeps with a zero
    or negative delay, nor after an acknowledgment receive that reports
    [0] or [-1]. *)
Theorem readRegister_sleeps (dev reg N : Z) (delay : Q) (t : T) :
  (sleeps (calls (readRegister self dev reg N delay) t) = []
   \/ (sleeps (calls (readRegister self dev reg N delay) t) = [delay]
       /\ (0 < delay)%Q))
  /\ ((delay <= 0)%Q -> sleeps (calls (readRegister self dev reg N delay) t) = [])
  /\ (forall s d t1,
        yields (send (write_restart_packet dev reg) t) 1 (mkReply s d) t1 ->
        s = 0 \/ s = -1 ->
        sleeps (calls (readRegister self dev reg N delay) t) = []).
Proof.
  assert (Hno : Qle_bool delay 0 = true ->
                sleeps (calls (readRegister self dev reg N delay) t) = []).
  { intros Hd. observe. rewrite Hd. observe.
    observe_reply. observe_test; [|reflexivity].
    observe_reply. observe_test; [|reflexivity].
    observe_test; [|reflexivity].
    observe_reply. observe_test; reflexivity. }
  split; [|split].
  - destruct (Qle_bool delay 0) eqn:Hd; [left; apply Hno; reflexivity|].
    observe. rewrite Hd. observe. observe_reply.
    observe_test; [|left; reflexivity].
    destruct (Qgt_bool delay 0) eqn:Hg; observe.
    + right. split.
      * observe_reply. observe_test; [|reflexivity].
        observe_test; [|reflexivity].
        observe_reply. observe_test; reflexivity.
      * unfold Qgt_bool in Hg. apply Z.ltb_lt in Hg. exact Hg.
    + left. observe_reply. observe_test; [|reflexivity].
      observe_test; [|reflexivity].
      observe_reply. observe_test; reflexivity.
  - intros Hd. apply Hno. apply Qle_bool_iff. exact Hd.
  - intros s d t1 E Hs. destruct (Qle_bool delay 0) eqn:Hd; [apply Hno; reflexivity|].
    reduce in E. observe. rewrite Hd. observe. rewrite E. observe.
    rewrite (ack_ok_false s d Hs). reflexivity.
Qed.

(** X10. After an acceptable acknowledgment the bytes [readRegister] has
    put on the wire are the same with and without a delay: the
    write-restart packet followed by the read request, in one send or in
    two. *)
Theorem readRegister_same_stream (dev reg N : Z) (delay : Q) (t : T) :
  forall s d t1,
    yields (send (if Qle_bool delay 0
                  then write_restart_packet dev reg ++ read_request_packet N
                  else write_restart_packet dev reg) t) 1 (mkReply s d) t1 ->
    s <> 0 -> s <> -1 ->
    concat (sent (calls (readRegister self dev reg N delay) t))
      = write_restart_packet dev reg ++ read_request_packet N.
Proof.
  intros s d t1 E Hs Hs'. destruct (Qle_bool delay 0) eqn:Hd.
  - rewrite readRegister_sent_nodelay by exact Hd. cbn [concat]. apply app_nil_r.
  - rewrite readRegister_sent_delay by exact Hd. reduce in E. observe.
    rewrite E. observe. rewrite (ack_ok_true s d Hs Hs'). reflexivity.
Qed.

(** X11. The read and write methods never call [sendReset]; only
    [setFreq] does, once, for every integer below [2^53] in magnitude. *)
Theorem only_setFreq_resets (dev reg N hz : Z) (vByte : list Z) (delay : Q) (t : T) :
  resets (calls (writeRaw self dev vByte) t) = 0%nat
  /\ resets (calls (readRaw self dev N) t) = 0%nat
  /\ resets (calls (writeRegister self dev reg vByte) t) = 0%nat
  /\ resets (calls (readRegister self dev reg N delay) t) = 0%nat
  /\ (Z.abs hz < 2 ^ 53 -> resets (calls (setFreq hz) t) = 1%nat).
Proof.
  split; [|split; [|split; [|split]]].
  - observe. observe_reply. repeat observe_test; reflexivity.
  - observe. observe_reply. observe_test; [|reflexivity].
    observe_test; [|reflexivity]. observe_reply. observe_test; reflexivity.
  - observe. observe_reply. repeat observe_test; reflexivity.
  - observe. destruct (Qle_bool delay 0); observe; observe_reply;
      (observe_test; [|reflexivity]);
      repeat match goal with
             | |- context [if Qgt_bool ?a ?b then _ else _] =>
                 destruct (Qgt_bool a b); observe
             end;
      observe_reply; (observe_test; [|reflexivity]);
      (observe_test; [|reflexivity]);
      observe_reply; observe_test; reflexivity.
  - intros Hhz. rewrite (setFreq_exact hz Hhz). reflexivity.
Qed.

(** X12. For a frequency that is not negative (and in the range where
    Python's division of integers is exact), [setFreq] cannot tell [hz]
    from [hz + 2560000]: the frequency byte wraps with period 2.56 MHz. *)
Theorem setFreq_periodic (hz : Z) (t : T) :
  0 <= hz < 2 ^ 52 ->
  calls (setFreq (hz + 2560000)) t = calls (setFreq hz) t.
Proof.
  intros Hhz.
  assert (E : Z.land (Z.quot (hz + 2560000) 10000) 255
              = Z.land (Z.quot hz 10000) 255).
  { change 255 with (Z.ones 8). rewrite !Z.land_ones by lia.
    rewrite !Z.quot_div_nonneg by lia.
    replace (hz + 2560000) with (hz + 256 * 10000) by lia.
    rewrite Z.div_add by lia.
    change (2 ^ 8) with 256.
    replace (hz / 10000 + 256) with (hz / 10000 + 1 * 256) by lia.
    apply Z.mod_add. lia. }
  change (2 ^ 52) with 4503599627370496 in Hhz.
  rewrite (setFreq_exact hz), (setFreq_exact (hz + 2560000))
    by (change (2 ^ 53) with 9007199254740992; lia).
  observe. rewrite E. reflexivity.
Qed.

(** X13. For [0 <= hz < 2560000] nothing wraps: the frequency byte [b] is
    the number of whole 10 kHz steps in [hz], so [10000*b <= hz <
    10000*(b+1)]. *)
Theorem setFreq_in_range (hz : Z) (t : T) :
  0 <= hz < 2560000 ->
  exists b,
    calls (setFreq hz) t = [EvSend [ord "2"; ord "F"; b]; EvReset]
    /\ 0 <= b <= 255
    /\ 10000 * b <= hz < 10000 * (b + 1).
Proof.
  intros Hhz. exists (hz / 10000).
  assert (Hb : 0 <= hz / 10000 <= 255).
  { split; [apply Z.div_pos; lia|].
    apply Z.lt_succ_r. apply Z.div_lt_upper_bound; lia. }
  split; [|split; [exact Hb|]].
  - assert (E : Z.land (Z.quot hz 10000) 255 = hz / 10000).
    { change 255 with (Z.ones 8). rewrite Z.land_ones by lia.
      rewrite Z.quot_div_nonneg by lia. apply Z.mod_small.
      change (2 ^ 8) with 256. lia. }
    rewrite (setFreq_exact hz) by (change (2 ^ 53) with 9007199254740992; lia).
    observe. rewrite E. reflexivity.
  - pose proof (Z.div_mod hz 10000 ltac:(lia)).
    pose proof (Z.mod_pos_bound hz 10000 ltac:(lia)). lia.
Qed.

End BusMore.

(** ** Pin arithmetic of [ExtGpio_base.py] *)

(** X14. For a pin number that is not negative and a positive port width
    (both within the range where Python's division of integers is exact),
    [pinPortMask] splits the pin into a port and a bit position that
    recompose to it, [pin = port*pinsInPort + bit] with the bit below the
    width, and the mask is two to the power of the bit. *)
Theorem pinPortMask_decompose (pin pinsInPort : Z) :
  0 <= pin -> 0 < pinsInPort -> pin + pinsInPort < 2 ^ 53 ->
  exists bit port,
    pinPortMask pin pinsInPort = inr (bit, port, 2 ^ bit)
    /\ pin = port * pinsInPort + bit
    /\ 0 <= bit < pinsInPort
    /\ 0 <= port.
Proof.
  intros Hpin Hn _. exists (pin mod pinsInPort), (pin / pinsInPort).
  pose proof (Z.mod_pos_bound pin pinsInPort Hn) as Hb.
  split; [|split; [|split]].
  - unfold pinPortMask.
    destruct (Z.eqb_spec pinsInPort 0) as [?|_]; [lia|].
    destruct (Z.ltb_spec (pin mod pinsInPort) 0) as [?|_]; [lia|].
    rewrite Z.quot_div_nonneg by lia. rewrite Z.shiftl_1_l. reflexivity.
  - pose proof (Z.div_mod pin pinsInPort ltac:(lia)). lia.
  - exact Hb.
  - apply Z.div_pos; lia.
Qed.

(** X15. For a positive port width the mask [pinPortMask] returns has
    exactly one bit set, the one at the returned bit position, whatever the
    sign of the pin number; with eight pins per port it lies between 1 and
    128. *)
Theorem pinPortMask_single_bit (pin pinsInPort : Z) :
  0 < pinsInPort -> Z.abs pin < 2 ^ 53 ->
  forall bit port mask,
    pinPortMask pin pinsInPort = inr (bit, port, mask) ->
    (forall i, 0 <= i -> Z.testbit mask i = (bit =? i))
    /\ (pinsInPort = 8 -> 1 <= mask <= 128).
Proof.
  intros Hn _ bit port mask E. unfold pinPortMask in E.
  pose proof (Z.mod_pos_bound pin pinsInPort Hn) as Hb.
  destruct (Z.eqb_spec pinsInPort 0) as [?|_]; [lia|].
  destruct (Z.ltb_spec (pin mod pinsInPort) 0) as [?|_]; [lia|].
  injection E as <- <- <-. rewrite Z.shiftl_1_l. split.
  - intros i Hi. apply Z.pow2_bits_eqb. lia.
  - intros ->. split.
    + assert (0 < 2 ^ (pin mod 8)) by (apply Z.pow_pos_nonneg; lia). lia.
    + change 128 with (2 ^ 7). apply Z.pow_le_mono_r; lia.
Qed.

(** X16. [pinPortMask] raises [ZeroDivisionError] for a port width of
    zero, and [ValueError] for a negative width that does not divide the
    pin number, where the bit position comes out negative. *)
Theorem pinPortMask_errors (pin pinsInPort : Z) :
  pinPortMask pin 0 = inl ZeroDivisionError
  /\ (pinsInPort < 0 -> Z.abs pin < 2 ^ 53 -> pin mod pinsInPort <> 0 ->
      pinPortMask pin pinsInPort = inl ValueError).
Proof.
  split; [reflexivity|]. intros Hn _ Hr. unfold pinPortMask.
  destruct (Z.eqb_spec pinsInPort 0) as [?|_]; [lia|].
  pose proof (Z.mod_neg_bound pin pinsInPort Hn) as Hb.
  destruct (Z.ltb_spec (pin mod pinsInPort) 0) as [_|?]; [reflexivity|lia].
Qed.

(** X17. For a negative pin number that the width does not divide, the
    port and the bit of [pinPortMask] do not recompose to the pin: the
    division truncates toward zero while the modulo is never negative, so
    [port*pinsInPort + bit] is the pin plus one whole port. *)
Theorem pinPortMask_negative_pin (pin pinsInPort : Z) :
  pin < 0 -> 0 < pinsInPort -> pinsInPort - pin < 2 ^ 53 ->
  pin mod pinsInPort <> 0 ->
  exists bit port mask,
    pinPortMask pin pinsInPort = inr (bit, port, mask)
    /\ 0 < bit < pinsInPort
    /\ port * pinsInPort + bit = pin + pinsInPort.
Proof.
  intros Hpin Hn _ Hr.
  pose proof (Z.mod_pos_bound pin pinsInPort Hn) as Hb.
  exists (pin mod pinsInPort), (Z.quot pin pinsInPort),
         (Z.shiftl 1 (pin mod pinsInPort)).
  split; [|split; [lia|]].
  - unfold pinPortMask.
    destruct (Z.eqb_spec pinsInPort 0) as [?|_]; [lia|].
    destruct (Z.ltb_spec (pin mod pinsInPort) 0) as [?|_]; [lia|reflexivity].
  - pose proof (Z.quot_rem' pin pinsInPort) as Hq.
    pose proof (Z.rem_bound_pos_neg pin pinsInPort Hn ltac:(lia)) as Hrem.
    pose proof (Z.div_mod pin pinsInPort ltac:(lia)) as Hd.
    assert (Hk : Z.quot pin pinsInPort = pin / pinsInPort + 1) by nia.
    rewrite Hk. lia.
Qed.

(** X18. In the base class, [setPin] raises [NameError] for every
    argument, reading [pinList] where its parameter is [valList]; [getPin]
    returns one [1] for each requested pin, a bare integer counting as one
    pin. *)
Theorem ExtGPIO_base_pin_stubs (pin : Z) (arg : IntOrList) :
  ExtGPIO_base.setPin pin arg = Raises (NameError "pinList")
  /\ ExtGPIO_base.getPin arg
     = Returns (replicate (length (as_list arg)) 1)
  /\ ExtGPIO_base.getPin (AnInt pin) = Returns [1].
Proof.
  split; [reflexivity|]. split; [|reflexivity].
  unfold ExtGPIO_base.getPin, ExtGPIO_base.times, len.
  rewrite Nat2Z.id. reflexivity.
Qed.

(** ** The MAX3700 driver *)

Section Max3700Facts.
Context {T : Type} {TT : Transport T}.
Variable self : Max3700ExtGPIO.obj.
Variable printf_default_v : bool.

(** X19. The driver's two register helpers address the chip's own
    [devID]: [_setRegisters] sends one write-register packet, and
    [_getRegisters] always takes the no-delay path of [readRegister], one
    combined send and no [time.sleep]. *)
Theorem max3700_register_helpers (reg N : Z) (vals : list Z) (t : T) :
  sent (calls (Max3700ExtGPIO._setRegisters self reg vals) t)
    = [[ord "2"; ord "A"; Max3700ExtGPIO.devID self; ord "L"; len vals + 1;
        ord "W"; reg] ++ vals]
  /\ sent (calls (Max3700ExtGPIO._getRegisters self reg N) t)
    = [[ord "2"; ord "A"; Max3700ExtGPIO.devID self; ord "L"; 1; ord "w"; reg;
        ord "2"; ord "L"; N; ord "R"]]
  /\ sleeps (calls (Max3700ExtGPIO._getRegisters self reg N) t) = [].
Proof.
  split; [apply writeRegister_sent|].
  split; [apply (readRegister_sent_nodelay _ _ reg N 0 t); reflexivity|].
  unfold Max3700ExtGPIO._getRegisters. observe.
  change (Qle_bool 0 0) with true. observe.
  observe_reply. observe_test; [|reflexivity].
  observe_reply. observe_test; [|reflexivity].
  observe_test; [|reflexivity].
  observe_reply. observe_test; reflexivity.
Qed.

(** X20. Every method of the driver that reads or writes a register
    raises [AttributeError] before anything reaches the transport: the
    methods ask for [_writeRegister], [_writeRegisters], [_readRegister]
    and [_readRegisters], and the class defines none of them. *)
Theorem max3700_methods_AttributeError
  (mode td B N port val pin x : Z) (vals : IntOrList) (rest : list Z) (t : T) :
  drun (Max3700ExtGPIO.setMode self mode td) t
    = (Failed (AttributeError "_writeRegisters"), mkWorld t [])
  /\ drun (Max3700ExtGPIO.getMode self) t
    = (Failed (AttributeError "_readRegisters"), mkWorld t [])
  /\ drun (Max3700ExtGPIO.setBankMode self printf_default_v B vals) t
    = (Failed (AttributeError "_writeRegister"), mkWorld t [])
  /\ drun (Max3700ExtGPIO.getBankMode self printf_default_v B N) t
    = (Failed (AttributeError "_readRegister"), mkWorld t [])
  /\ drun (Max3700ExtGPIO.setAllPinsToOutput self printf_default_v) t
    = (Failed (AttributeError "_writeRegisters"), mkWorld t [])
  /\ drun (Max3700ExtGPIO.getAllPinsModes self printf_default_v) t
    = (Failed (AttributeError "_readRegisters"), mkWorld t [])
  /\ drun (Max3700ExtGPIO.setPort self port val) t
    = (Failed (AttributeError "_writeRegister"), mkWorld t [])
  /\ drun (Max3700ExtGPIO.clearAllPins self) t
    = (Failed (AttributeError "_writeRegister"), mkWorld t [])
  /\ drun (Max3700ExtGPIO.getPort self port) t
    = (Failed (AttributeError "_readRegister"), mkWorld t [])
  /\ drun (Max3700ExtGPIO.setPin self pin (AnInt x)) t
    = (Failed (AttributeError "_writeRegister"), mkWorld t [])
  /\ drun (Max3700ExtGPIO.setPin self pin (AList (x :: rest))) t
    = (Failed (AttributeError "_writeRegister"), mkWorld t [])
  /\ drun (Max3700ExtGPIO.getPin self (AnInt pin)) t
    = (Failed (AttributeError "_readRegister"), mkWorld t [])
  /\ drun (Max3700ExtGPIO.getPin self (AList (pin :: rest))) t
    = (Failed (AttributeError "_readRegister"), mkWorld t []).
Proof. repeat split. Qed.

(** X21. On an empty list the two pin loops do not run: [getPin([])]
    returns the empty list, and [setPin(pin, [])] raises
    [UnboundLocalError] at [return reply[0]]; neither touches the
    transport. *)
Theorem max3700_empty_lists (pin : Z) (t : T) :
  drun (Max3700ExtGPIO.getPin self (AList [])) t = (Done [], mkWorld t [])
  /\ drun (Max3700ExtGPIO.setPin self pin (AList [])) t
    = (Failed (UnboundLocalError "reply"), mkWorld t []).
Proof. split; reflexivity. Qed.

End Max3700Facts.

(** ** The further properties on concrete inputs *)

(** X1 on a quiet object and a bridge that answers ['N']. *)
Lemma writeRaw_one_round_scenario :
  calls (writeRaw (mkSelf false) 0x14 [0; 1; 2]) (script [mkReply 1 [0x4E]])
    = [EvSend (write_packet 0x14 [0; 1; 2]); EvReceive 1]
  /\ result (writeRaw (mkSelf false) 0x14 [0; 1; 2]) (script [mkReply 1 [0x4E]])
     = Returns (mkReply 1 [0x4E]).
Proof.
  apply (proj2 (proj2 (writeRaw_one_round (TT:=Scripted_transport) (mkSelf false)
                         0x14 [0; 1; 2] (script [mkReply 1 [0x4E]])))).
  reflexivity.
Defined.

(** X2: the register [0x10] as the first payload byte of a raw write. *)
Lemma writeRegister_as_writeRaw_scenario :
  run (writeRegister (mkSelf false) 0x14 0x10 [0; 1; 2]) (script [mkReply 1 [0x4E]])
    = run (writeRaw (mkSelf false) 0x14 [0x10; 0; 1; 2]) (script [mkReply 1 [0x4E]]).
Proof.
  apply (proj2 (writeRegister_as_writeRaw (TT:=Scripted_transport) (mkSelf false)
                  0x14 0x10 [0; 1; 2] (script [mkReply 1 [0x4E]]))).
  reflexivity.
Defined.

(** X3: the firmware answers the write with the length error ['L']. *)
Lemma writeRegister_verbose_report_scenario :
  result (writeRegister (mkSelf true) 0x14 0x10 [0; 1; 2]) (script [mkReply 1 [0x4C]])
    = Returns (mkReply 1 [0x4C])
  /\ calls (writeRegister (mkSelf true) 0x14 0x10 [0; 1; 2]) (script [mkReply 1 [0x4C]])
     = [EvSend (write_register_packet 0x14 0x10 [0; 1; 2]); EvReceive 1;
        EvPrintf "I2C-WR: Dev-0x%02x, Reg%d - %s"
                 [ArgInt 0x14; ArgInt 0x10; ArgText "LENGTH"] true].
Proof.
  apply (proj2 (writeRegister_verbose_report (TT:=Scripted_transport) (mkSelf true)
                  0x14 0x10 [0; 1; 2] (script [mkReply 1 [0x4C]])
                  ltac:(reflexivity) 1 [0x4C] (script []) ltac:(reflexivity))
           ltac:(lia) 0x4C [] "LENGTH" ltac:(reflexivity)).
  vm_compute. reflexivity.
Defined.

(** X4: the status byte [0x01] is not a key of [self.ERROR]. *)
Lemma writeRegister_verbose_errors_scenario :
  result (writeRegister (mkSelf true) 0x14 0x10 [0; 1; 2]) (script [mkReply 1 [0x01]])
    = Raises (KeyError 0x01).
Proof.
  apply (proj1 (proj2 (writeRegister_verbose_errors (TT:=Scripted_transport)
                  (mkSelf true) 0x14 0x10 [0; 1; 2] (script [mkReply 1 [0x01]])
                  ltac:(reflexivity) 1 [0x01] (script []) ltac:(reflexivity)
                  ltac:(lia)))
           0x01 [] ltac:(reflexivity)); lia.
Defined.

(** X5: a count of two and two bytes. *)
Lemma readRaw_success_scenario :
  result (readRaw (mkSelf false) 0x14 2) (script [mkReply 1 [2]; mkReply 1 [0xAB; 0xCD]])
    = Returns (VList [0xAB; 0xCD])
  /\ received (calls (readRaw (mkSelf false) 0x14 2)
                 (script [mkReply 1 [2]; mkReply 1 [0xAB; 0xCD]]))
     = [1; 2].
Proof.
  apply (proj2 (readRaw_success (TT:=Scripted_transport) (mkSelf false) 0x14 2
                  (script [mkReply 1 [2]; mkReply 1 [0xAB; 0xCD]]))
           1 2 [] (script [mkReply 1 [0xAB; 0xCD]]) 1 [0xAB; 0xCD] (script [])
           ltac:(reflexivity) ltac:(lia) ltac:(reflexivity) ltac:(lia)).
Defined.

(** X8: a delay of minus one second. *)
Lemma readRegister_nonpositive_delay_scenario :
  run (readRegister (mkSelf false) 0x14 0x10 3 (-1 # 1)) error_ack_script
    = run (readRegister (mkSelf false) 0x14 0x10 3 0) error_ack_script.
Proof.
  apply (readRegister_nonpositive_delay (TT:=Scripted_transport) (mkSelf false)
           0x14 0x10 3 (-1 # 1) error_ack_script).
  unfold Qle. simpl. lia.
Defined.

(** X9: no sleep after a refused register selection, whatever the delay. *)
Lemma readRegister_sleeps_scenario :
  sleeps (calls (readRegister (mkSelf false) 0x14 0x10 3 (1 # 2))
            (script [mkReply (-1) []]))
    = [].
Proof.
  apply (proj2 (proj2 (readRegister_sleeps (TT:=Scripted_transport) (mkSelf false)
                         0x14 0x10 3 (1 # 2) (script [mkReply (-1) []])))
           (-1) [] (script []) ltac:(reflexivity)).
  right. reflexivity.
Defined.

(** X10 with half a second between the two halves. *)
Lemma readRegister_same_stream_scenario :
  concat (sent (calls (readRegister (mkSelf false) 0x14 0x10 3 (1 # 2))
                  (script [mkReply 1 [0x01]; mkReply 1 [0x03];
                           mkReply 1 [0x11; 0x22; 0x33]])))
    = write_restart_packet 0x14 0x10 ++ read_request_packet 3.
Proof.
  apply (readRegister_same_stream (TT:=Scripted_transport) (mkSelf false)
           0x14 0x10 3 (1 # 2)
           (script [mkReply 1 [0x01]; mkReply 1 [0x03]; mkReply 1 [0x11; 0x22; 0x33]])
           1 [0x01] (script [mkReply 1 [0x03]; mkReply 1 [0x11; 0x22; 0x33]])
           ltac:(reflexivity)); lia.
Defined.

(** X12: 100 kHz and 2.66 MHz. *)
Lemma setFreq_periodic_scenario :
  calls (setFreq (100000 + 2560000)) (script []) = calls (setFreq 100000) (script []).
Proof.
  apply (setFreq_periodic (TT:=Scripted_transport) 100000 (script [])). lia.
Defined.

(** X13: 404999 Hz is forty whole steps. *)
Lemma setFreq_in_range_scenario :
  exists b,
    calls (setFreq 404999) (script []) = [EvSend [ord "2"; ord "F"; b]; EvReset]
    /\ 0 <= b <= 255
    /\ 10000 * b <= 404999 < 10000 * (b + 1).
Proof.
  apply (setFreq_in_range (TT:=Scripted_transport) 404999 (script [])). lia.
Defined.

(** X14: pin 19 is bit 3 of port 2. *)
Lemma pinPortMask_decompose_scenario :
  exists bit port,
    pinPortMask 19 8 = inr (bit, port, 2 ^ bit)
    /\ 19 = port * 8 + bit /\ 0 <= bit < 8 /\ 0 <= port.
Proof. apply (pinPortMask_decompose 19 8); lia. Defined.

Lemma pinPortMask_single_bit_scenario :
  (forall i, 0 <= i -> Z.testbit 8 i = (3 =? i)) /\ (8 = 8 -> 1 <= 8 <= 128).
Proof.
  apply (pinPortMask_single_bit 19 8 ltac:(lia) ltac:(lia) 3 2 8). reflexivity.
Defined.

Lemma pinPortMask_errors_scenario : pinPortMask 19 (-8) = inl ValueError.
Proof.
  apply (proj2 (pinPortMask_errors 19 (-8))); [lia|lia|]. vm_compute. discriminate.
Defined.

(** X17: pin [-1] comes out as bit 7 of port 0. *)
Lemma pinPortMask_negative_pin_scenario :
  exists bit port mask,
    pinPortMask (-1) 8 = inr (bit, port, mask)
    /\ 0 < bit < 8 /\ port * 8 + bit = -1 + 8.
Proof.
  apply (pinPortMask_negative_pin (-1) 8); [lia|lia|lia|]. vm_compute. discriminate.
Defined.

(** ** Two more facts on the write methods *)

Section WriteMore.
Context {T : Type} {TT : Transport T}.

(** X22. With the verbose flag on, [writeRaw] still returns the reply when
    the status receive reports [0], and raises [IndexError], not
    [NameError], when the reply claims a byte and carries none: the list
    is indexed before the unbound name is read. *)
Theorem writeRaw_verbose_other_paths (self : ArduBridgeI2C) (dev : Z) (vByte : list Z) (t : T) :
  v self = true ->
  forall s d t1,
    yields (send (write_packet dev vByte) t) 1 (mkReply s d) t1 ->
    (s = 0 ->
       result (writeRaw self dev vByte) t = Returns (mkReply s d)
       /\ calls (writeRaw self dev vByte) t
          = [EvSend (write_packet dev vByte); EvReceive 1])
    /\ (s <> 0 -> d = [] ->
       result (writeRaw self dev vByte) t = Raises IndexError).
Proof.
  intros Hv s d t1 E. reduce in E. split.
  - intros ->. observe. rewrite E. observe. rewrite Hv. split; reflexivity.
  - intros Hs ->. observe. rewrite E. observe.
    rewrite Hv, (got_byte_true s [] Hs). reflexivity.
Qed.

(** X23. The packet of [writeRegister] determines its arguments: two calls
    that put the same bytes on the wire were made with the same device,
    the same register and the same payload. *)
Theorem writeRegister_packet_injective
  (self self' : ArduBridgeI2C) (dev dev' reg reg' : Z) (vByte vByte' : list Z) (t t' : T) :
  sent (calls (writeRegister self dev reg vByte) t)
    = sent (calls (writeRegister self' dev' reg' vByte') t') ->
  dev = dev' /\ reg = reg' /\ vByte = vByte'.
Proof.
  rewrite !writeRegister_sent. unfold write_register_packet. cbn [app].
  intros E. injection E as -> _ -> ->. repeat split.
Qed.

End WriteMore.

Lemma writeRaw_verbose_other_paths_scenario :
  result (writeRaw (mkSelf true) 0x14 [0; 1; 2]) (script [])
    = Returns (mkReply 0 [])
  /\ calls (writeRaw (mkSelf true) 0x14 [0; 1; 2]) (script [])
     = [EvSend (write_packet 0x14 [0; 1; 2]); EvReceive 1].
Proof.
  apply (proj1 (writeRaw_verbose_other_paths (TT:=Scripted_transport) (mkSelf true)
                  0x14 [0; 1; 2] (script []) ltac:(reflexivity)
                  0 [] (script []) ltac:(reflexivity))).
  reflexivity.
Defined.

Lemma writeRegister_packet_injective_scenario :
  0x14 = 0x14 /\ 0x10 = 0x10 /\ [0; 1; 2] = [0; 1; 2].
Proof.
  apply (writeRegister_packet_injective (TT:=Scripted_transport)
           (mkSelf false) (mkSelf true) 0x14 0x14 0x10 0x10 [0; 1; 2] [0; 1; 2]
           (script []) (script [mkReply 1 [0x4E]])).
  reflexivity.
Defined.

(** X11 at 400 kHz. *)
Lemma only_setFreq_resets_scenario :
  resets (calls (setFreq 400000) (script [])) = 1%nat.
Proof.
  apply (proj2 (proj2 (proj2 (proj2
           (only_setFreq_resets (TT:=Scripted_transport) (mkSelf false)
              0x14 0x10 3 400000 [0; 1; 2] 0 (script [])))))).
  reflexivity.
Defined.
